(** * gptme: configuration resolution and the evaluation agent harness

    A shallow embedding of [gptme/config.py] and [gptme/eval/agents.py].
    Python objects become Rocq values, the process state (environment,
    configuration file, cached [Config], file system, log) becomes an
    explicit world threaded through a state-and-exception monad, and the
    libraries the code calls into (tomlkit's parser, [glob] on patterns
    with a bracket or with a wildcard in a directory, the chat engine)
    are Section variables. *)

From Stdlib Require Import ZArith String Ascii List.
From stdpp Require Import base strings gmap list pretty.

Local Open Scope string_scope.
Local Open Scope list_scope.

(** ** Python values, exceptions and the monad of effects *)
Module Py.

(** The exceptions the two modules can raise or see. *)
Inductive exn : Type :=
| KeyError (msg : string)
| AssertionError (msg : string)
| AttributeError
| TypeError
| FileExistsError (msg : string)
| FileNotFoundError
| IsADirectoryError
| NotADirectoryError
| SystemExit (code : Z)
| KeyboardInterrupt
| OtherException (name : string).

Inductive res (A : Type) : Type :=
| Ok (a : A)
| Raise (e : exn).
Arguments Ok {A} a.
Arguments Raise {A} e.

(** A computation reads and writes a state [St]; an exception keeps the
    state reached when it was raised (Python does not roll back). *)
Definition M (St A : Type) : Type := St -> res A * St.

Definition ret {St A} (a : A) : M St A := fun w => (Ok a, w).
Definition raise {St A} (e : exn) : M St A := fun w => (Raise e, w).
Definition bind {St A B} (m : M St A) (k : A -> M St B) : M St B :=
  fun w => match m w with
           | (Ok a, w') => k a w'
           | (Raise e, w') => (Raise e, w')
           end.
Definition lift {St A} (r : res A) : M St A := fun w => (r, w).
Definition gets {St A} (f : St -> A) : M St A := fun w => (Ok (f w), w).
Definition modify {St} (f : St -> St) : M St unit := fun w => (Ok tt, f w).

(** [str.split(sep)] for a one-character separator: never empty. *)
Fixpoint split (sep : ascii) (s : string) : list string :=
  match s with
  | EmptyString => [""]
  | String a s' =>
      if Ascii.eqb a sep then "" :: split sep s'
      else match split sep s' with
           | [] => [String a ""]
           | h :: t => String a h :: t
           end
  end.

(** [sep.join(l)]. *)
Fixpoint join (sep : string) (l : list string) : string :=
  match l with
  | [] => ""
  | [x] => x
  | x :: t => x +:+ sep +:+ join sep t
  end.

(** [s.replace(c, by)] for a one-character pattern. *)
Fixpoint replace (c : ascii) (by_ : string) (s : string) : string :=
  match s with
  | EmptyString => ""
  | String a s' =>
      if Ascii.eqb a c then by_ +:+ replace c by_ s' else String a (replace c by_ s')
  end.

End Py.

Declare Scope py_scope.
Delimit Scope py_scope with py.
Notation "x <~ m ;; k" := (Py.bind m (fun x => k))
  (at level 100, m at next level, right associativity) : py_scope.
Notation "m ;;; k" := (Py.bind m (fun _ => k))
  (at level 100, right associativity) : py_scope.

(** ** The TOML document model

    tomlkit keeps a container as an ordered body of (optional key, item)
    pairs, where comments are items without a key.  Floats and dates are
    left out; no function below treats them apart from other scalars.
    A table is one written under its own header; inline tables, arrays
    of tables and dotted keys are left out, and so are white space and
    the trivia of an item. *)
Module Toml.

#[warnings="-register-all"] Inductive item : Type :=
| String_ (s : string)
| Integer (z : Z)
| Bool (b : bool)
| Array (l : list item)
| Table (body : list (option string * item))
| Comment (text : string).

Definition body : Type := list (option string * item).

(** [key in d] / [d[key]] on a container: the entry carrying the key. *)
Fixpoint body_get (k : string) (b : body) : option item :=
  match b with
  | [] => None
  | (Some k', v) :: t => if String.eqb k' k then Some v else body_get k t
  | (None, _) :: t => body_get k t
  end.

(** Apply [f] to the value stored under [k], in place. *)
Fixpoint body_update (k : string) (f : item -> item) (b : body) : body :=
  match b with
  | [] => []
  | (Some k', v) :: t =>
      if String.eqb k' k then (Some k', f v) :: t else (Some k', v) :: body_update k f t
  | (None, v) :: t => (None, v) :: body_update k f t
  end.

(** Where tomlkit puts a new key whose value is not a table: before
    the first table of the body, where the file gives the key to the
    body and not to that table; at the end when the body has no
    table. *)
Fixpoint body_insert (k : string) (v : item) (b : body) : body :=
  match b with
  | [] => [(Some k, v)]
  | (k', Table t) :: rest => (Some k, v) :: (k', Table t) :: rest
  | kv :: rest => kv :: body_insert k v rest
  end.

(** [d[k] = v]: replaces the value in place; a new key goes before the
    first table of the body, unless its value is a table, which is
    appended. *)
Definition body_set (k : string) (v : item) (b : body) : body :=
  match body_get k b with
  | Some _ => body_update k (fun _ => v) b
  | None =>
      match v with
      | Table _ => b ++ [(Some k, v)]
      | _ => body_insert k v b
      end
  end.

(** [del d[k]]: no entry carries the key afterwards. *)
Fixpoint body_del (k : string) (b : body) : body :=
  match b with
  | [] => []
  | (Some k', v) :: t =>
      if String.eqb k' k then body_del k t else (Some k', v) :: body_del k t
  | (None, v) :: t => (None, v) :: body_del k t
  end.

(** [d.add(item)] for a keyless item: appended to the body. *)
Definition body_add (it : item) (b : body) : body := b ++ [(None, it)].

(** [tomlkit.comment(s)]. *)
Definition comment (s : string) : item := Comment ("# " +:+ s).

Definition body_keys (b : body) : list string := omap fst b.

(** [d.pop(k)] as far as the remaining container goes. *)
Definition body_pop (k : string) (b : body) : body := body_del k b.

(** Python truthiness.  A container counts its keys, so a table that
    holds only comments is falsy. *)
Definition truthy_item (it : item) : bool :=
  match it with
  | String_ s => negb (String.eqb s "")
  | Integer z => negb (Z.eqb z 0)
  | Bool b => b
  | Array l => match l with [] => false | _ => true end
  | Table b => match body_keys b with [] => false | _ => true end
  | Comment _ => true
  end.

(** A Python value that may be [None]. *)
Definition pyval : Type := option item.

Definition truthy (v : pyval) : bool :=
  match v with
  | None => false
  | Some it => truthy_item it
  end.

(** [d.get(k)]: only mappings have [get]. *)
Definition item_get (d : item) (k : string) : Py.res pyval :=
  match d with
  | Table b => Py.Ok (body_get k b)
  | _ => Py.Raise Py.AttributeError
  end.

(** The item reached from [it] by following [path] through tables. *)
Fixpoint item_at (path : list string) (it : item) : option item :=
  match path with
  | [] => Some it
  | k :: p =>
      match it with
      | Table b => match body_get k b with
                   | Some v => item_at p v
                   | None => None
                   end
      | _ => None
      end
  end.

(** The document with the item at [path] replaced by [new]. *)
Fixpoint replace_at (path : list string) (new : item) (it : item) : item :=
  match path with
  | [] => new
  | k :: p =>
      match it with
      | Table b => Table (body_update k (replace_at p new) b)
      | _ => it
      end
  end.

(** What the variable [d] of the two editing functions refers to: an
    object inside the loaded document, named by the keys that lead to it
    (mutating it mutates the document), or the fresh [{}] that
    [d.get(key, {})] returns for a missing key, which nothing else holds. *)
Inductive pyref : Type :=
| InDoc (path : list string)
| Detached.

(** [d.get(key, {})]. *)
Definition ref_get (doc : body) (d : pyref) (k : string) : Py.res pyref :=
  match d with
  | InDoc p =>
      match item_at p (Table doc) with
      | Some (Table b) =>
          match body_get k b with
          | Some _ => Py.Ok (InDoc (p ++ [k]))
          | None => Py.Ok Detached
          end
      | _ => Py.Raise Py.AttributeError
      end
  | Detached => Py.Ok Detached
  end.

(** [d.get(key, None)] at the leaf. *)
Definition ref_lookup (doc : body) (d : pyref) (k : string) : Py.res pyval :=
  match d with
  | InDoc p =>
      match item_at p (Table doc) with
      | Some it => item_get it k
      | None => Py.Raise Py.AttributeError
      end
  | Detached => Py.Ok None
  end.

(** [d[k] = v]: the document after the assignment.  Through [Detached]
    the value lands in the fresh dict and the document stays as it was. *)
Definition ref_setitem (doc : body) (d : pyref) (k : string) (v : item) : Py.res body :=
  match d with
  | InDoc p =>
      match item_at p (Table doc) with
      | Some (Table b) =>
          match replace_at p (Table (body_set k v b)) (Table doc) with
          | Table doc' => Py.Ok doc'
          | _ => Py.Raise Py.TypeError
          end
      | _ => Py.Raise Py.TypeError
      end
  | Detached => Py.Ok doc
  end.

(** [del d[k]] followed by [d.add(c)] on a table inside the document. *)
Definition ref_del_add (doc : body) (d : pyref) (k : string) (c : item) : Py.res body :=
  match d with
  | InDoc p =>
      match item_at p (Table doc) with
      | Some (Table b) =>
          match replace_at p (Table (body_add c (body_del k b))) (Table doc) with
          | Table doc' => Py.Ok doc'
          | _ => Py.Raise Py.TypeError
          end
      | _ => Py.Raise Py.TypeError
      end
  | Detached => Py.Ok doc
  end.

(** The loop [for key in keypath[:-1]: d = d.get(key, {})]. *)
Fixpoint walk (doc : body) (d : pyref) (keys : list string) : Py.res pyref :=
  match keys with
  | [] => Py.Ok d
  | k :: ks =>
      match ref_get doc d k with
      | Py.Ok d' => walk doc d' ks
      | Py.Raise e => Py.Raise e
      end
  end.

End Toml.

(** ** Paths and the file system

    [pathlib] normalises a path when it is built: empty and [.]
    components disappear, the anchor is kept.  The file system maps the
    canonical absolute paths of its entries ([/a/b]) to directories and
    text files; the root is a directory, and so is every path that has
    entries below it.  The operating system resolves a path string
    component by component from the root or from the current directory,
    passing only through directories.  Symbolic links are not
    modelled, so [lstat] and [stat] agree. *)
Module Fs.

Inductive node : Type :=
| Dir
| File (text : string).

Record path : Type := MkPath { anchor : string; parts : list string }.

Definition is_part (c : string) : bool :=
  negb (String.eqb c "") && negb (String.eqb c ".").

(** [Path(s)]. *)
Definition Path (s : string) : path :=
  {| anchor := if String.prefix "//" s && negb (String.prefix "///" s) then "//"
               else if String.prefix "/" s then "/" else "";
     parts := List.filter is_part (Py.split "/" s) |}.

(** [p / s]. *)
Definition joinpath (p : path) (s : string) : path :=
  let q := Path s in
  if String.eqb (anchor q) "" then MkPath (anchor p) (parts p ++ parts q) else q.

(** [str(p)]. *)
Definition str (p : path) : string :=
  match anchor p, parts p with
  | EmptyString, [] => "."
  | a, ps => a +:+ Py.join "/" ps
  end.

(** [p.name]. *)
Definition name (p : path) : string := List.last (parts p) "".

(** The string of [p] made absolute under [cwd], as [os.path.abspath]
    would without collapsing [..]. *)
Definition resolve (cwd : path) (p : path) : string :=
  str (if String.eqb (anchor p) "" then MkPath (anchor cwd) (parts cwd ++ parts p) else p).

(** *** What the operating system finds *)

(** The key of the entry reached from the root through [names]. *)
Definition key (names : list string) : string := "/" +:+ Py.join "/" names.

Definition has_below (fs : gmap string node) (k : string) : bool :=
  map_fold (fun k' _ acc => acc || String.prefix (k +:+ "/") k') false fs.

(** The node at a canonical location, if there is one. *)
Definition node_at (fs : gmap string node) (names : list string) : option node :=
  match names with
  | [] => Some Dir
  | _ => match fs !! key names with
         | Some n => Some n
         | None => if has_below fs (key names) then Some Dir else None
         end
  end.

(** The outcome of a lookup: the canonical location and the node, or
    the error of the system call. *)
Inductive found : Type :=
| Found (names : list string) (n : node)
| ENOENT
| ENOTDIR.

(** Resolution of the components of a path string from the
    directory [cur]: every component, the empty one that a doubled or
    trailing slash leaves included, is taken in a directory. *)
Fixpoint lookup_from (fs : gmap string node) (cur : list string) (comps : list string)
  : found :=
  match comps with
  | [] => match node_at fs cur with
          | Some n => Found cur n
          | None => ENOENT
          end
  | c :: rest =>
      match node_at fs cur with
      | Some Dir =>
          if String.eqb c "" || String.eqb c "." then lookup_from fs cur rest
          else if String.eqb c ".." then lookup_from fs (removelast cur) rest
          else lookup_from fs (cur ++ [c]) rest
      | Some (File _) => ENOTDIR
      | None => ENOENT
      end
  end.

(** [os.stat(s)] for a process whose current directory is [cwd]. *)
Definition stat (fs : gmap string node) (cwd : path) (s : string) : found :=
  if String.eqb s "" then ENOENT
  else lookup_from fs (if String.prefix "/" s then [] else parts cwd) (Py.split "/" s).

(** [os.path.lexists(s)] and [os.path.isdir(s)]. *)
Definition lexists (fs : gmap string node) (cwd : path) (s : string) : bool :=
  match stat fs cwd s with
  | Found _ _ => true
  | _ => false
  end.

Definition isdir (fs : gmap string node) (cwd : path) (s : string) : bool :=
  match stat fs cwd s with
  | Found _ Dir => true
  | _ => false
  end.

(** [p.exists()] and [p.is_dir()]: the system call on [str(p)]. *)
Definition exists_ (fs : gmap string node) (cwd : path) (p : path) : bool :=
  lexists fs cwd (str p).

Definition is_dir (fs : gmap string node) (cwd : path) (p : path) : bool :=
  isdir fs cwd (str p).

(** [open(p).read()] and [p.read_text()]. *)
Definition read_text (fs : gmap string node) (cwd : path) (p : path) : Py.res string :=
  match stat fs cwd (str p) with
  | Found _ (File t) => Py.Ok t
  | Found _ Dir => Py.Raise Py.IsADirectoryError
  | ENOENT => Py.Raise Py.FileNotFoundError
  | ENOTDIR => Py.Raise Py.NotADirectoryError
  end.

Fixpoint strip_prefix (pre s : string) : option string :=
  match pre, s with
  | EmptyString, _ => Some s
  | String a pre', String b s' => if Ascii.eqb a b then strip_prefix pre' s' else None
  | String _ _, EmptyString => None
  end.

(** The names of the entries of the directory at [names], as
    [os.scandir] reports them.  The system promises no order; the model
    lists in the order of the set of names. *)
Definition listdir (fs : gmap string node) (names : list string) : list string :=
  let pre := match names with [] => "/" | _ => key names +:+ "/" end in
  elements
    (map_fold (fun k _ (acc : gset string) =>
                 match strip_prefix pre k with
                 | Some rest =>
                     match Py.split "/" rest with
                     | EmptyString :: _ | [] => acc
                     | n :: _ => {[ n ]} ∪ acc
                     end
                 | None => acc
                 end) ∅ fs).

(** *** [os.path] and [fnmatch] *)

(** [(p[:i], p[i:])] for [i] just after the last slash of [p]. *)
Fixpoint cut_at_last_slash (p : string) : string * string :=
  match p with
  | EmptyString => ("", "")
  | String a p' =>
      let (h, t) := cut_at_last_slash p' in
      if String.eqb h ""
      then (if Ascii.eqb a "/" then ("/", t) else ("", String a t))
      else (String a h, t)
  end.

(** [s.rstrip("/")]. *)
Fixpoint rstrip_slash (s : string) : string :=
  match s with
  | EmptyString => ""
  | String a s' =>
      let r := rstrip_slash s' in
      if String.eqb r "" && Ascii.eqb a "/" then "" else String a r
  end.

Definition all_slashes (s : string) : bool :=
  forallb (fun a => Ascii.eqb a "/") (list_ascii_of_string s).

(** [os.path.split(p)]. *)
Definition os_path_split (p : string) : string * string :=
  let (head, tail) := cut_at_last_slash p in
  (if negb (String.eqb head "") && negb (all_slashes head) then rstrip_slash head else head,
   tail).

Definition ends_with_slash (s : string) : bool :=
  match List.last (list_ascii_of_string s) "a"%char with
  | "/"%char => true
  | _ => false
  end.

(** [os.path.join(a, b)]. *)
Definition os_path_join (a b : string) : string :=
  if String.prefix "/" b then b
  else if String.eqb a "" || ends_with_slash a then a +:+ b
  else a +:+ "/" +:+ b.

(** [fnmatch] for a pattern whose only wildcards are [*] and [?]:
    [*] stands for any run of characters, [?] for any one. *)
Fixpoint fnmatch_chars (pat : list ascii) : list ascii -> bool :=
  match pat with
  | [] => fun name => match name with [] => true | _ => false end
  | c :: pat' =>
      if Ascii.eqb c "*"
      then fix star (name : list ascii) : bool :=
             fnmatch_chars pat' name
             || match name with
                | [] => false
                | _ :: name' => star name'
                end
      else fun name =>
             match name with
             | [] => false
             | d :: name' => (Ascii.eqb c "?" || Ascii.eqb c d) && fnmatch_chars pat' name'
             end
  end.

Definition fnmatch (pat name : string) : bool :=
  fnmatch_chars (list_ascii_of_string pat) (list_ascii_of_string name).

(** *** [glob] *)

Definition magic_char (a : ascii) : bool :=
  Ascii.eqb a "*" || Ascii.eqb a "?" || Ascii.eqb a "[".

Definition has_magic (s : string) : bool :=
  existsb magic_char (list_ascii_of_string s).

Definition has_bracket (s : string) : bool :=
  existsb (fun a => Ascii.eqb a "[") (list_ascii_of_string s).

(** [_ishidden]. *)
Definition ishidden (s : string) : bool := String.prefix "." s.

(** [os.scandir(dirname or ".")], empty when that is no directory. *)
Definition scandir (fs : gmap string node) (cwd : path) (dirname : string) : list string :=
  match stat fs cwd (if String.eqb dirname "" then "." else dirname) with
  | Found names Dir => listdir fs names
  | _ => []
  end.

(** [_glob1]: the names in a directory that match a pattern; hidden
    names only for a pattern that is hidden itself. *)
Definition glob1 (fs : gmap string node) (cwd : path) (dirname pattern : string)
  : list string :=
  let names := scandir fs cwd dirname in
  let names := if ishidden pattern then names
               else List.filter (fun x => negb (ishidden x)) names in
  List.filter (fnmatch pattern) names.

Section Glob.
(** The expansion of the [glob] module for the patterns that are not
    spelled out below: those with a bracket, and those with a wildcard
    before the last component.  It is a function of the file system,
    the current directory and the pattern. *)
Variable glob_magic : gmap string node -> path -> string -> list string.

(** [glob.glob(pathname)].  A pattern without wildcards is returned as
    it is when it names an entry (a directory, when it ends in a
    slash), and is dropped otherwise.  A pattern whose wildcards are
    [*] and [?] in its last component gives the matching names of the
    directory before it, which is the current directory when there is
    none, each joined to that directory. *)
Definition glob (fs : gmap string node) (cwd : path) (pathname : string) : list string :=
  let (dirname, basename) := os_path_split pathname in
  if negb (has_magic pathname)
  then (if negb (String.eqb basename "")
        then (if lexists fs cwd pathname then [pathname] else [])
        else (if isdir fs cwd dirname then [pathname] else []))
  else if has_bracket pathname || has_magic dirname then glob_magic fs cwd pathname
  else if String.eqb dirname "" then glob1 fs cwd "" basename
  else List.map (os_path_join dirname) (glob1 fs cwd dirname basename).
End Glob.

End Fs.

(** ** gptme/config.py *)
Module ConfigPy.
Import Py Toml.
Local Open Scope py_scope.

Record Config : Type := MkConfig { prompt : item; env : item }.

(** What the module writes to the console and to the logger; the
    payload is what the message is formatted from. *)
Inductive event : Type :=
| CreatedConfigFile
| UnknownKeys (keys : list string)
| UsingProjectConfig (p : Fs.path)
| MissingProjectFile (file : string)
| NoCustomEndpoint (provider : string).

(** The state of the process: [os.environ], the file at [config_path]
    (held as the document tomlkit reads from it and writes to it,
    [None] while the file does not exist), the module global [_config],
    the rest of the file system with the current directory, and the
    messages emitted so far (latest first).  A file at [config_path]
    that tomlkit cannot parse, and a file or a directory that cannot
    be opened or created there, have no counterpart in this state. *)
Record world : Type := MkWorld {
  environ : gmap string string;
  config_file : option body;
  _config : option Config;
  fs : gmap string Fs.node;
  cwd : Fs.path;
  log : list event }.

Definition set_config_file (f : option body) (w : world) : world :=
  MkWorld (environ w) f (_config w) (fs w) (cwd w) (log w).
Definition set_cached (c : option Config) (w : world) : world :=
  MkWorld (environ w) (config_file w) c (fs w) (cwd w) (log w).
Definition emit (e : event) (w : world) : world :=
  MkWorld (environ w) (config_file w) (_config w) (fs w) (cwd w) (e :: log w).
Definition set_environ (e : gmap string string) (w : world) : world :=
  MkWorld e (config_file w) (_config w) (fs w) (cwd w) (log w).
Definition set_cwd (d : Fs.path) (w : world) : world :=
  MkWorld (environ w) (config_file w) (_config w) (fs w) d (log w).

(** [os.environ.get(key)]. *)
Definition os_environ_get (key : string) : M world pyval :=
  gets (fun w => String_ <$> environ w !! key).

(** [Config.get_env]: [os.environ.get(key) or self.env.get(key) or default]. *)
Definition get_env (self : Config) (key : string) (default : option string) : M world pyval :=
  a <~ os_environ_get key ;;
  if truthy a then ret a
  else (b <~ lift (item_get (env self) key) ;;
        if truthy b then ret b else ret (String_ <$> default)).

(** [Config.get_env_required]. *)
Definition get_env_required (self : Config) (key : string) : M world pyval :=
  a <~ os_environ_get key ;;
  val <~ (if truthy a then ret a else lift (item_get (env self) key)) ;;
  if truthy val then ret val
  else raise (KeyError ("Environment variable " +:+ key +:+ " not set in env or config, see README.")).

Definition ABOUT_ACTIVITYWATCH : string :=
  "ActivityWatch is a free and open-source automated time-tracker that helps you track how you spend your time on your devices.".
Definition ABOUT_GPTME : string :=
  "gptme is a CLI to interact with large language models in a Chat-style interface, enabling the assistant to execute commands and code on the local machine, letting them assist in all kinds of development and terminal-based work.".

Definition default_config : Config :=
  {| prompt := Table
       [ (Some "about_user", String_ "I am a curious human programmer.");
         (Some "response_preference", String_ "Basic concepts don't need to be explained.");
         (Some "project", Table [ (Some "activitywatch", String_ ABOUT_ACTIVITYWATCH);
                                  (Some "gptme", String_ ABOUT_GPTME) ]) ];
     env := Table [] |}.

(** [Config.dict]. *)
Definition dict (self : Config) : body :=
  [ (Some "prompt", prompt self); (Some "env", env self) ].

(** [_load_config]: the document of the file, which is first created
    from [default_config] when it does not exist.  The exceptions of
    [open], [os.makedirs] and [tomlkit.load] are outside the state
    above, so this function has no failing path here. *)
Definition _load_config : M world body :=
  f <~ gets config_file ;;
  match f with
  | None =>
      let toml := dict default_config in
      modify (set_config_file (Some toml)) ;;;
      modify (emit CreatedConfigFile) ;;;
      ret toml
  | Some doc => ret doc
  end.

(** [load_config]. *)
Definition load_config : M world Config :=
  config <~ _load_config ;;
  match body_get "prompt" config with
  | None => raise (AssertionError "prompt key missing in config")
  | Some prompt_ =>
      match body_get "env" config with
      | None => raise (AssertionError "env key missing in config")
      | Some env_ =>
          let config' := body_pop "env" (body_pop "prompt" config) in
          (if truthy_item (Table config')
           then modify (emit (UnknownKeys (body_keys config')))
           else ret tt) ;;;
          ret (MkConfig prompt_ env_)
      end
  end.

(** [get_config]. *)
Definition get_config : M world Config :=
  c <~ gets _config ;;
  match c with
  | Some c => ret c
  | None => c' <~ load_config ;; modify (set_cached (Some c')) ;;; ret c'
  end.

(** The tail both editing functions share: write the document, then
    [_config = load_config()]. *)
Definition write_and_reload (doc : body) : M world unit :=
  modify (set_config_file (Some doc)) ;;;
  c <~ load_config ;;
  modify (set_cached (Some c)).

(** [set_config_value]. *)
Definition set_config_value (key : string) (value : string) : M world unit :=
  doc <~ _load_config ;;
  let keypath := split "." key in
  d <~ lift (walk doc (InDoc []) (removelast keypath)) ;;
  doc' <~ lift (ref_setitem doc d (List.last keypath "") (String_ value)) ;;
  write_and_reload doc'.

Section Str.
(** How tomlkit prints an array or a table inside an f-string. *)
Variable container_str : item -> string.

(** [f"{value}"]. *)
Definition item_str (v : item) : string :=
  match v with
  | String_ s => s
  | Integer z => pretty z
  | Bool b => if b then "True" else "False"
  | other => container_str other
  end.

(** [comment_out]. *)
Definition comment_out (key : string) (extra_comment : string) : M world unit :=
  doc <~ _load_config ;;
  let keypath := split "." key in
  d <~ lift (walk doc (InDoc []) (removelast keypath)) ;;
  let _key := List.last keypath "" in
  value <~ lift (ref_lookup doc d _key) ;;
  doc' <~ (match value with
           | Some v =>
               if truthy_item v
               then lift (ref_del_add doc d _key
                            (comment (_key +:+ " = " +:+ item_str v +:+ " # " +:+ extra_comment)))
               else ret doc
           | None => ret doc
           end) ;;
  write_and_reload doc'.
End Str.

(** *** The project prompt *)

(** [ProjectConfig]: [files] holds whatever the project file gives. *)
Record ProjectConfig : Type := MkProjectConfig { files : item }.

(** [ProjectConfig] built from the keys of the parsed file as keyword
    arguments: a keyword other than [files] is refused, a missing one
    takes the default empty list. *)
Definition new_ProjectConfig (kwargs : body) : res ProjectConfig :=
  if forallb (String.eqb "files") (body_keys kwargs)
  then Ok (MkProjectConfig (default (Array []) (body_get "files" kwargs)))
  else Raise TypeError.

(** [for file in v]. *)
Definition iter_item (v : item) : res (list item) :=
  match v with
  | Array l => Ok l
  | String_ s => Ok (List.map (fun a => String_ (String a "")) (list_ascii_of_string s))
  | Table b => Ok (List.map String_ (body_keys b))
  | _ => Raise TypeError
  end.

Definition nl : string := String "010"%char "".

Definition prompt_header : string :=
  nl +:+ nl +:+ "Selected project files, read more with cat:" +:+ nl.

Definition fence : string := "```".

Section Project.
(** [tomlkit.loads] on the text of a file. *)
Variable toml_loads : string -> res body.
Variable glob_magic : gmap string Fs.node -> Fs.path -> string -> list string.

(** [[p for file in project.files for p in glob.glob(file)]]. *)
Fixpoint expand (fs_ : gmap string Fs.node) (cwd_ : Fs.path) (l : list item)
  : res (list string) :=
  match l with
  | [] => Ok []
  | String_ file :: t =>
      match expand fs_ cwd_ t with
      | Ok r => Ok (Fs.glob glob_magic fs_ cwd_ file ++ r)
      | Raise e => Raise e
      end
  | _ :: _ => Raise TypeError
  end.

(** The loop that leaves the process at the first missing file. *)
Fixpoint check_files (l : list string) : M world unit :=
  match l with
  | [] => ret tt
  | file :: t =>
      ex <~ gets (fun w => Fs.exists_ (fs w) (cwd w) (Fs.Path file)) ;;
      if ex then check_files t
      else (modify (emit (MissingProjectFile file)) ;;; raise (SystemExit 1))
  end.

(** One fenced block per file. *)
Fixpoint render_files (l : list string) : M world (list string) :=
  match l with
  | [] => ret []
  | file :: t =>
      text <~ (fun w => (Fs.read_text (fs w) (cwd w) (Fs.Path file), w)) ;;
      rest <~ render_files t ;;
      ret ((fence +:+ Fs.name (Fs.Path file) +:+ nl +:+ text +:+ nl +:+ fence) :: rest)
  end.

Definition candidates (workspace : string) : list Fs.path :=
  [ Fs.joinpath (Fs.Path workspace) "gptme.toml";
    Fs.joinpath (Fs.joinpath (Fs.Path workspace) ".github") "gptme.toml" ].

(** [get_workspace_prompt]. *)
Definition get_workspace_prompt (workspace : string) : M world string :=
  project_config_paths <~
    gets (fun w => List.filter (Fs.exists_ (fs w) (cwd w)) (candidates workspace)) ;;
  match project_config_paths with
  | project_config_path :: _ =>
      modify (emit (UsingProjectConfig project_config_path)) ;;;
      text <~ (fun w => (Fs.read_text (fs w) (cwd w) project_config_path, w)) ;;
      project_config <~ lift (toml_loads text) ;;
      project <~ lift (new_ProjectConfig project_config) ;;
      patterns <~ lift (iter_item (files project)) ;;
      files_ <~ (fun w => (expand (fs w) (cwd w) patterns, w)) ;;
      check_files files_ ;;;
      blocks <~ render_files files_ ;;
      ret (prompt_header +:+ join (nl +:+ nl) blocks)
  | [] => ret ""
  end.
End Project.

(** *** Provider and LLMAPIConfig *)
Inductive Provider : Type := OPENAI | AZURE_OPENAI | ANTHROPIC | OPENROUTER | LOCAL.

Definition value (p : Provider) : string :=
  match p with
  | OPENAI => "openai"
  | AZURE_OPENAI => "azure"
  | ANTHROPIC => "anthropic"
  | OPENROUTER => "openrouter"
  | LOCAL => "local"
  end.

Definition is_openrouter (p : Provider) : bool :=
  match p with OPENROUTER => true | _ => false end.
Definition is_openai_alike (p : Provider) : bool :=
  match p with OPENAI | AZURE_OPENAI | OPENROUTER | LOCAL => true | ANTHROPIC => false end.
Definition is_anthropic_alike (p : Provider) : bool :=
  match p with ANTHROPIC => true | _ => false end.

(** [endpoint] is a validated URL when present, held by its text. *)
Record LLMAPIConfig : Type := MkLLMAPIConfig {
  endpoint : option string;
  token : string;
  provider : Provider;
  model : option string }.

Definition _envvar_api_key : string := "API_KEY".
Definition _envvar_provider : string := "API_PROVIDER".
Definition _envvar_model : string := "API_MODEL".

Definition _envvar_endpoint (self : LLMAPIConfig) : string :=
  match provider self with
  | OPENAI | AZURE_OPENAI => "API_ENDPOINT"
  | _ => ""
  end.

(** [LLMAPIConfig.save_to_config]. *)
Definition save_to_config (self : LLMAPIConfig) : M world unit :=
  set_config_value ("env." +:+ _envvar_api_key) (token self) ;;;
  set_config_value ("env." +:+ _envvar_provider) (value (provider self)) ;;;
  if String.eqb (_envvar_endpoint self) ""
  then modify (emit (NoCustomEndpoint (value (provider self))))
  else
    ((match model self with
      | Some m => if String.eqb m "" then ret tt
                  else set_config_value ("env." +:+ _envvar_model) m
      | None => ret tt
      end) ;;;
     match endpoint self with
     | Some u => set_config_value ("env." +:+ _envvar_endpoint self) u
     | None => ret tt
     end).

End ConfigPy.

(** ** gptme/eval/agents.py *)
Module AgentsPy.
Import Py.
Local Open Scope py_scope.

(** The process as the harness sees it: the file system, the current
    directory and what was printed (latest first). *)
Record world : Type := MkWorld {
  fs : gmap string Fs.node;
  cwd : Fs.path;
  stdout : list string }.

Definition set_fs (f : gmap string Fs.node) (w : world) : world :=
  MkWorld f (cwd w) (stdout w).
Definition print (s : string) : M world unit :=
  modify (fun w => MkWorld (fs w) (cwd w) (s :: stdout w)).

(** [try: m except (the exceptions [catches] accepts): handler]. *)
Definition try_except {St A} (m : M St A) (catches : exn -> bool) (handler : M St A)
  : M St A :=
  fun w => match m w with
           | (Raise e, w') => if catches e then handler w' else (Raise e, w')
           | r => r
           end.

(** *** The file store *)

Record FileStore : Type := MkFileStore { working_dir : Fs.path }.

(** Modelled from the spec: the constructor of [FileStore]
    (gptme/eval/filestore.py is not among the sources) binds the store
    to exactly one target directory. *)
Definition new_FileStore (dir : Fs.path) : M world FileStore :=
  ret (MkFileStore dir).

Definition absolute (cwd_ : Fs.path) (p : Fs.path) : Fs.path :=
  if String.eqb (Fs.anchor p) ""
  then Fs.MkPath (Fs.anchor cwd_) (Fs.parts cwd_ ++ Fs.parts p) else p.

(** The directories above [q], outermost first. *)
Definition parents (q : Fs.path) : list Fs.path :=
  List.map (fun i => Fs.MkPath (Fs.anchor q) (take i (Fs.parts q)))
           (seq 0 (length (Fs.parts q))).

Definition mkdir_exist_ok (f : gmap string Fs.node) (d : Fs.path) : gmap string Fs.node :=
  match f !! Fs.str d with
  | Some _ => f
  | None => <[Fs.str d := Fs.Dir]> f
  end.

Definition write_file (cwd_ : Fs.path) (dir : Fs.path) (name content : string)
    (f : gmap string Fs.node) : gmap string Fs.node :=
  let q := absolute cwd_ (Fs.joinpath dir name) in
  <[Fs.str q := Fs.File content]> (fold_left mkdir_exist_ok (parents q) f).

(** Modelled from the spec: [FileStore.upload] materialises every
    (relative path, content) pair under the bound directory, creating
    intermediate directories as needed and overwriting what is there. *)
Definition upload (self : FileStore) (files : gmap string string) : M world unit :=
  modify (fun w =>
    set_fs (map_fold (write_file (cwd w) (working_dir self)) (fs w) files) w).

Fixpoint strip_prefix (pre s : string) : option string :=
  match pre, s with
  | EmptyString, _ => Some s
  | String a pre', String b s' => if Ascii.eqb a b then strip_prefix pre' s' else None
  | String _ _, EmptyString => None
  end.

Definition dir_prefix (root : string) : string :=
  if Fs.ends_with_slash root then root else root +:+ "/".

Definition snapshot (root : string) (f : gmap string Fs.node) : gmap string string :=
  map_fold (fun k n acc =>
              match n, strip_prefix (dir_prefix root) k with
              | Fs.File t, Some rel => <[rel := t]> acc
              | _, _ => acc
              end) ∅ f.

(** Modelled from the spec: [FileStore.download] walks the bound
    directory recursively and returns every file found, under its path
    relative to the bound directory. *)
Definition download (self : FileStore) : M world (gmap string string) :=
  gets (fun w => snapshot (Fs.str (absolute (cwd w) (working_dir self))) (fs w)).

(** *** The agent *)

Record Message : Type := MkMessage { role : string; content : string }.

(** The arguments of one call of the chat engine. *)
Record chat_call : Type := MkChatCall {
  messages : list Message;
  system_prompts : list Message;
  name : string;
  model : string;
  no_confirm : bool;
  interactive : bool;
  workspace : string }.

Definition nl : string := String "010"%char "".

Section Agent.
(** The collaborators of the harness, none of them among the sources:
    the randomised [hash] of a string, [gptme.cli.get_name] (the log
    directory of a run name), [gptme.get_prompt] and [gptme.chat]. *)
Variable hash : string -> Z.
Variable get_name : string -> Fs.path.
Variable get_prompt : M world Message.
Variable gptme_chat : chat_call -> M world unit.

Definition run_name (model_ prompt : string) : string :=
  let _id := (Z.abs (hash prompt) mod 1000000)%Z in
  "gptme-evals-" +:+ replace "/" "--" model_ +:+ "-" +:+ pretty _id.

Definition workspace_of (model_ prompt : string) : Fs.path :=
  Fs.joinpath (get_name (run_name model_ prompt)) "workspace".

Definition is_exit (e : exn) : bool :=
  match e with
  | SystemExit _ | KeyboardInterrupt => true
  | _ => false
  end.

(** [if files:] holds for a mapping that is neither [None] nor empty. *)
Definition truthy_files (files : option (gmap string string)) : bool :=
  match files with
  | Some m => negb (bool_decide (m = ∅))
  | None => false
  end.

(** [GPTMe.act], for the agent whose model is [model_]. *)
Definition act (model_ : string) (files : option (gmap string string)) (prompt : string)
  : M world (gmap string string) :=
  let name_ := run_name model_ prompt in
  let workspace_dir := workspace_of model_ prompt in
  ex <~ gets (fun w => Fs.exists_ (fs w) (cwd w) workspace_dir) ;;
  if ex
  then raise (FileExistsError
                ("Workspace directory " +:+ Fs.str workspace_dir +:+ " already exists. "))
  else
    (store <~ new_FileStore workspace_dir ;;
     (match files with
      | Some m => if truthy_files files then upload store m else ret tt
      | None => ret tt
      end) ;;;
     print (nl +:+ "--- Start of generation ---") ;;;
     prompt_sys <~ get_prompt ;;
     let prompt_sys' :=
       MkMessage (role prompt_sys)
         (content prompt_sys +:+ nl +:+ nl
          +:+ "If you have trouble and dont seem to make progress, stop trying.") in
     try_except
       (gptme_chat (MkChatCall [MkMessage "user" prompt] [prompt_sys'] name_ model_
                      true false "@log"))
       is_exit (ret tt) ;;;
     print ("--- Finished generation ---" +:+ nl) ;;;
     download store).
End Agent.

End AgentsPy.

(** ** The specification's wording, and the inputs of the examples *)
Module SpecWords.
Import Py Toml ConfigPy.

(** [getEnv] as the specification words it, where being set decides:
    the process environment variable if set, otherwise the persisted
    value if present, otherwise the default, otherwise null. *)
Definition getEnv_by_presence (environ_ : gmap string string) (env_ : body)
    (key : string) (default : option string) : pyval :=
  match environ_ !! key with
  | Some v => Some (String_ v)
  | None =>
      match body_get key env_ with
      | Some v => Some v
      | None => String_ <$> default
      end
  end.

(** The document [_load_config] returns in a world. *)
Definition loaded (w : world) : body :=
  match config_file w with
  | Some doc => doc
  | None => dict default_config
  end.

(** The world [_load_config] leaves: the file exists afterwards. *)
Definition after_load (w : world) : world :=
  match config_file w with
  | Some _ => w
  | None => emit CreatedConfigFile (set_config_file (Some (dict default_config)) w)
  end.

(** The world after the given messages were emitted, latest first. *)
Definition emits (evs : list event) (w : world) : world := fold_right emit w evs.

(** The body of a table, empty for any other item. *)
Definition table_body (it : item) : body :=
  match it with
  | Table b => b
  | _ => []
  end.




(** The comment [comment_out] writes for a key and its value. *)
Definition commented (container_str : item -> string) (k : string) (v : item)
    (extra_comment : string) : item :=
  comment (k +:+ " = " +:+ item_str container_str v +:+ " # " +:+ extra_comment).

(** The fenced block of a file path and the text read from it. *)
Definition block (file text : string) : string :=
  fence +:+ Fs.name (Fs.Path file) +:+ nl +:+ text +:+ nl +:+ fence.

(** A parser that knows two project files, standing for tomlkit in the
    examples. *)
Definition example_loads (text : string) : res body :=
  if String.eqb text "files = ['*.md']"
  then Ok [(Some "files", Array [String_ "*.md"])]
  else if String.eqb text "files = ['notes.txt']"
       then Ok [(Some "files", Array [String_ "notes.txt"])]
       else Raise (OtherException "ParseError").

(** An expansion for the patterns that [Fs.glob] hands on (a bracket,
    or a wildcard in a directory), standing for that part of [glob] in
    the examples: it finds [README.md] for [[A-Z]*.md] when the current
    directory holds it, and nothing otherwise. *)
Definition example_glob (fs_ : gmap string Fs.node) (cwd_ : Fs.path) (pattern : string)
  : list string :=
  if String.eqb pattern "[A-Z]*.md" && Fs.lexists fs_ cwd_ "README.md"
  then ["README.md"] else [].

(** A string without a slash: one component of a path. *)
Definition no_slash (s : string) : bool :=
  forallb (fun a => negb (Ascii.eqb a "/")) (list_ascii_of_string s).

(** The names a pattern may match: all of them for a hidden pattern,
    the ones that are not hidden otherwise. *)
Definition visible (pattern : string) (names : list string) : list string :=
  if Fs.ishidden pattern then names
  else List.filter (fun x => negb (Fs.ishidden x)) names.

(** A world with the given file system and current directory, and
    nothing else. *)
Definition world_at (fs_ : gmap string Fs.node) (cwd_ : string) : world :=
  MkWorld ∅ None None fs_ (Fs.Path cwd_) [].

(** A world with the given environment and configuration file, nothing
    cached, an empty file system and the root as current directory. *)
Definition world_of (environ_ : gmap string string) (file : option body) : world :=
  MkWorld environ_ file None ∅ (Fs.Path "/") [].

(** A configuration document with an empty [prompt] table and the
    given [env] table. *)
Definition doc_with_env (e : body) : body :=
  [ (Some "prompt", Table []); (Some "env", Table e) ].

End SpecWords.

(** ** The worlds and collaborators of the harness examples *)
Module AgentWords.
Import Py AgentsPy.
Local Open Scope py_scope.

(** The world in which the chat engine is called: the input files are
    uploaded and the opening line is printed. *)
Definition prepared (dir : Fs.path) (files : option (gmap string string)) (w : world)
  : world :=
  snd (((match files with
         | Some m => if truthy_files files then upload (MkFileStore dir) m else ret tt
         | None => ret tt
         end) ;;;
        print (nl +:+ "--- Start of generation ---")) w).

(** The system prompt with the sentence the harness appends. *)
Definition with_advice (sys : Message) : Message :=
  MkMessage (role sys)
    (content sys +:+ nl +:+ nl
     +:+ "If you have trouble and dont seem to make progress, stop trying.").

(** The call the harness makes. *)
Definition the_call (name_ model_ prompt : string) (sys : Message) : chat_call :=
  MkChatCall [MkMessage "user" prompt] [with_advice sys] name_ model_ true false "@log".

(** The world after the closing line is printed. *)
Definition finished (w : world) : world :=
  snd (print ("--- Finished generation ---" +:+ nl) w).

(** The files under [dir] in a world. *)
Definition files_in (dir : Fs.path) (w : world) : gmap string string :=
  snapshot (Fs.str (absolute (cwd w) dir)) (fs w).

(** Collaborators for the examples: a constant hash, log directories
    under [/logs], a fixed system prompt, and an engine that writes one
    file into the workspace of the run and is then interrupted. *)
Definition example_hash (s : string) : Z := 42.
Definition example_get_name (n : string) : Fs.path := Fs.Path ("/logs/" +:+ n).
Definition example_get_prompt : M world Message := ret (MkMessage "system" "You are gptme.").
Definition example_chat (call : chat_call) : M world unit :=
  fun w =>
    (Raise KeyboardInterrupt,
     set_fs (<["/logs/" +:+ name call +:+ "/workspace/out.txt" := Fs.File "partial"]> (fs w)) w).

Definition example_world (f : gmap string Fs.node) : world := MkWorld f (Fs.Path "/") [].

End AgentWords.

(** ** Further views of the model, used to state its properties *)
Module Aux.
Import Py Toml ConfigPy.

(** The top-level keys [load_config] has no use for, in document order. *)
Definition unknown_keys (doc : body) : list string :=
  List.filter (fun k => negb (String.eqb k "prompt" || String.eqb k "env")) (body_keys doc).

Definition is_table (it : item) : bool :=
  match it with
  | Table _ => true
  | _ => false
  end.

(** [d[k] = v] when a value is given. *)
Definition body_set_opt (k : string) (v : option string) (b : body) : body :=
  match v with
  | Some s => body_set k (String_ s) b
  | None => b
  end.

(** A string that counts in an [if]: neither [None] nor empty. *)
Definition nonempty (v : option string) : option string :=
  match v with
  | Some s => if String.eqb s "" then None else Some s
  | None => None
  end.

(** The [env] table [save_to_config] aims at, from the table [e]. *)
Definition saved_env (self : LLMAPIConfig) (e : body) : body :=
  let e2 := body_set "API_PROVIDER" (String_ (value (provider self)))
              (body_set "API_KEY" (String_ (token self)) e) in
  if String.eqb (_envvar_endpoint self) "" then e2
  else body_set_opt (_envvar_endpoint self) (endpoint self)
         (body_set_opt "API_MODEL" (nonempty (model self)) e2).

(** Whether [glob] keeps a pattern that has no wildcard: the pattern
    as it is written names an entry, or, when it ends in a slash, what
    is before the slashes names a directory. *)
Definition literal_hit (fs_ : gmap string Fs.node) (cwd_ : Fs.path) (pattern : string) : bool :=
  let (dirname, basename) := Fs.os_path_split pattern in
  if negb (String.eqb basename "") then Fs.lexists fs_ cwd_ pattern
  else Fs.isdir fs_ cwd_ dirname.

(** A wildcard expansion that reports a name nothing answers to, as
    [glob] does for a dangling symbolic link. *)
Definition dangling_glob (fs_ : gmap string Fs.node) (cwd_ : Fs.path) (pattern : string)
  : list string := ["README.md"; "gone.md"].

(** A parser that reads the given document from any text, standing
    for tomlkit on a project file that holds that document. *)
Definition loads_as (doc : body) (text : string) : res body := Ok doc.

(** A hash that gives two prompts numbers that differ in sign and by
    a multiple of a million, for the examples. *)
Definition example_hash2 (s : string) : Z :=
  if String.eqb s "first" then 42%Z else (-1000042)%Z.

(** The number at the end of a run name. *)
Definition run_id (hash : string -> Z) (prompt : string) : Z :=
  (Z.abs (hash prompt) mod 1000000)%Z.

End Aux.

(** * Properties of the model *)

Import Py Toml ConfigPy SpecWords.
Local Open Scope py_scope.

(** ** The model on small inputs *)

Example split_key_path : split "." "env.API_KEY" = ["env"; "API_KEY"].
Proof. reflexivity. Qed.

Example split_no_dot : split "." "" = [""] /\ split "." "a..b" = ["a"; ""; "b"].
Proof. split; reflexivity. Qed.

Example path_normalised :
  Fs.Path "a/./b//c/" = Fs.MkPath "" ["a"; "b"; "c"]
  /\ Fs.str (Fs.joinpath (Fs.joinpath (Fs.Path "ws/") ".github") "gptme.toml")
     = "ws/.github/gptme.toml"
  /\ Fs.name (Fs.Path "docs/README.md") = "README.md"
  /\ Fs.resolve (Fs.Path "/home") (Fs.Path "notes.txt") = "/home/notes.txt".
Proof. repeat split; reflexivity. Qed.

Example run_name_example :
  AgentsPy.run_name (fun _ => (-1234567)%Z) "openai/gpt-4" "p"
  = "gptme-evals-openai--gpt-4-234567".
Proof. vm_compute. reflexivity. Qed.

Example provider_classes :
  is_openai_alike OPENROUTER = true /\ is_openai_alike ANTHROPIC = false
  /\ is_anthropic_alike LOCAL = false.
Proof. repeat split; reflexivity. Qed.

Example set_on_scalar_raises :
  fst (set_config_value "env.FOO.x" "bar"
         (world_of ∅ (Some (doc_with_env [(Some "FOO", String_ "s")]))))
  = Raise TypeError.
Proof. vm_compute. reflexivity. Qed.

(** ** Association-list facts about TOML bodies *)

Lemma body_get_del_eq (k : string) (b : body) : body_get k (body_del k b) = None.
Proof.
  induction b as [|[[k'|] v] t IH]; simpl; auto.
  destruct (String.eqb_spec k' k) as [->|Hne]; simpl; auto.
  destruct (String.eqb_spec k' k); [contradiction | exact IH].
Qed.

Lemma body_get_del_ne (k k' : string) (b : body) :
  k <> k' -> body_get k' (body_del k b) = body_get k' b.
Proof.
  intros Hne. induction b as [|[[k0|] v] t IH]; simpl; auto.
  destruct (String.eqb_spec k0 k) as [->|Hk]; simpl.
  - destruct (String.eqb_spec k k'); [contradiction | exact IH].
  - destruct (String.eqb_spec k0 k'); auto.
Qed.

Lemma body_get_update (k k' : string) (f : item -> item) (b : body) :
  body_get k' (body_update k f b)
  = if String.eqb k k' then f <$> body_get k' b else body_get k' b.
Proof.
  induction b as [|[[k0|] v] t IH]; simpl.
  - destruct (String.eqb k k'); reflexivity.
  - destruct (String.eqb_spec k0 k) as [->|Hk]; simpl.
    + destruct (String.eqb_spec k k'); reflexivity.
    + destruct (String.eqb_spec k0 k') as [->|Hk'].
      * destruct (String.eqb_spec k k'); [subst; contradiction | reflexivity].
      * exact IH.
  - exact IH.
Qed.

Lemma body_get_app (k : string) (b c : body) :
  body_get k (b ++ c) = match body_get k b with
                        | Some v => Some v
                        | None => body_get k c
                        end.
Proof.
  induction b as [|[[k0|] v] t IH]; simpl; auto.
  destruct (String.eqb k0 k); auto.
Qed.

Lemma body_get_add (k : string) (c : item) (b : body) :
  body_get k (body_add c b) = body_get k b.
Proof.
  unfold body_add. rewrite body_get_app. simpl. destruct (body_get k b); reflexivity.
Qed.

Lemma body_get_insert_eq (k : string) (v : item) (b : body) :
  body_get k b = None -> body_get k (body_insert k v b) = Some v.
Proof.
  induction b as [|[[k0|] v0] t IH]; simpl.
  - intros _. rewrite String.eqb_refl. reflexivity.
  - destruct (String.eqb k0 k) eqn:E0; [discriminate|]. intros H.
    destruct v0; simpl; rewrite ?E0, ?String.eqb_refl; auto.
  - intros H. destruct v0; simpl; rewrite ?String.eqb_refl; auto.
Qed.

Lemma body_get_insert_ne (k k' : string) (v : item) (b : body) :
  k <> k' -> body_get k' (body_insert k v b) = body_get k' b.
Proof.
  intros Hne. apply String.eqb_neq in Hne.
  induction b as [|[[k0|] v0] t IH]; simpl.
  - rewrite Hne. reflexivity.
  - destruct v0; simpl; rewrite ?Hne, ?IH; reflexivity.
  - destruct v0; simpl; rewrite ?Hne, ?IH; reflexivity.
Qed.

Lemma body_get_set_eq (k : string) (v : item) (b : body) :
  body_get k (body_set k v b) = Some v.
Proof.
  unfold body_set. destruct (body_get k b) eqn:E.
  - rewrite body_get_update, String.eqb_refl, E. reflexivity.
  - destruct v; try (apply body_get_insert_eq; exact E).
    rewrite body_get_app, E. simpl. rewrite String.eqb_refl. reflexivity.
Qed.

Lemma body_get_set_ne (k k' : string) (v : item) (b : body) :
  k <> k' -> body_get k' (body_set k v b) = body_get k' b.
Proof.
  intros Hne. unfold body_set. destruct (body_get k b) eqn:E.
  - rewrite body_get_update. destruct (String.eqb_spec k k'); [contradiction | reflexivity].
  - destruct v; try (apply body_get_insert_ne; exact Hne).
    rewrite body_get_app. destruct (body_get k' b); [reflexivity|].
    simpl. destruct (String.eqb_spec k k'); [contradiction | reflexivity].
Qed.

(** ** Environment lookups *)

Lemma get_env_eq (p : item) (b : body) (key : string) (default : option string)
    (w : world) :
  get_env (MkConfig p (Table b)) key default w
  = (Ok (if truthy (String_ <$> environ w !! key) then String_ <$> environ w !! key
         else if truthy (body_get key b) then body_get key b
              else String_ <$> default), w).
Proof.
  unfold get_env, os_environ_get, bind, gets, ret, lift. simpl.
  destruct (truthy (String_ <$> environ w !! key)); [reflexivity|].
  destruct (truthy (body_get key b)); reflexivity.
Qed.

Lemma get_env_required_eq (p : item) (b : body) (key : string) (w : world) :
  get_env_required (MkConfig p (Table b)) key w
  = (let val := if truthy (String_ <$> environ w !! key)
                then String_ <$> environ w !! key else body_get key b in
     if truthy val then Ok val
     else Raise (KeyError ("Environment variable " +:+ key
                           +:+ " not set in env or config, see README.")), w).
Proof.
  unfold get_env_required, os_environ_get, bind, gets, ret, raise, lift. simpl.
  destruct (truthy (String_ <$> environ w !! key)) eqn:Ha; simpl.
  - rewrite Ha. reflexivity.
  - destruct (truthy (body_get key b)); reflexivity.
Qed.

Lemma truthy_environ_Some (v : string) :
  truthy (String_ <$> Some v) = negb (String.eqb v "").
Proof. reflexivity. Qed.

Lemma unset_or_empty_falsy (o : option string) :
  o = None \/ o = Some "" <-> truthy (String_ <$> o) = false.
Proof.
  split.
  - intros [-> | ->]; reflexivity.
  - destruct o as [s|]; simpl; [|auto].
    destruct (String.eqb_spec s "") as [->|]; [auto | discriminate].
Qed.

Lemma absent_or_falsy (o : option item) :
  o = None \/ (exists v, o = Some v /\ truthy_item v = false) <-> truthy o = false.
Proof.
  split.
  - intros [-> | (v & -> & Hv)]; [reflexivity | exact Hv].
  - destruct o as [v|]; simpl; [|auto]. intros Hv. right. eauto.
Qed.

(** C1, as amended: [get_env] returns the process environment variable
    when it is set to a non-empty string; otherwise the value persisted
    under the key in the [env] table when that value is truthy;
    otherwise the supplied default, which is null when none is given.
    The world is left as it was. *)
Theorem get_env_precedence (p : item) (b : body) (key : string)
    (default : option string) (w : world) :
  (forall v, environ w !! key = Some v -> v <> "" ->
     get_env (MkConfig p (Table b)) key default w = (Ok (Some (String_ v)), w))
  /\ (forall v, environ w !! key = None \/ environ w !! key = Some "" ->
        body_get key b = Some v -> truthy_item v = true ->
        get_env (MkConfig p (Table b)) key default w = (Ok (Some v), w))
  /\ (environ w !! key = None \/ environ w !! key = Some "" ->
      body_get key b = None \/ (exists v, body_get key b = Some v /\ truthy_item v = false) ->
      get_env (MkConfig p (Table b)) key default w = (Ok (String_ <$> default), w)).
Proof.
  repeat split.
  - intros v Hv Hne. rewrite get_env_eq, Hv, truthy_environ_Some.
    destruct (String.eqb_spec v ""); [contradiction | reflexivity].
  - intros v He Hb Ht. apply unset_or_empty_falsy in He.
    rewrite get_env_eq, He, Hb. simpl. rewrite Ht. reflexivity.
  - intros He Hb. apply unset_or_empty_falsy in He. apply absent_or_falsy in Hb.
    rewrite get_env_eq, He, Hb. reflexivity.
Qed.

(** With [FOO=live] in the process environment and [env.FOO = stale]
    persisted, [get_env] gives [live]. *)
Lemma get_env_precedence_witness :
  get_env (MkConfig (Table []) (Table [(Some "FOO", String_ "stale")])) "FOO" None
          (world_of {["FOO" := "live"]} None)
  = (Ok (Some (String_ "live")), world_of {["FOO" := "live"]} None).
Proof.
  apply (proj1 (get_env_precedence (Table []) [(Some "FOO", String_ "stale")]
                  "FOO" None (world_of {["FOO" := "live"]} None))).
  - vm_compute. reflexivity.
  - discriminate.
Defined.

(** C1 as stated fails: with [FOO] set to the empty string in the
    process environment and [env.FOO = stale] persisted, the code gives
    [stale], where the stated precedence gives the (set) empty string. *)
Lemma get_env_empty_environ_counterexample :
  fst (get_env (MkConfig (Table []) (Table [(Some "FOO", String_ "stale")])) "FOO" None
               (world_of {["FOO" := ""]} None))
  = Ok (Some (String_ "stale"))
  /\ getEnv_by_presence {["FOO" := ""]} [(Some "FOO", String_ "stale")] "FOO" None
     = Some (String_ "")
  /\ fst (get_env (MkConfig (Table []) (Table [(Some "FOO", String_ "stale")])) "FOO" None
               (world_of {["FOO" := ""]} None))
     <> Ok (getEnv_by_presence {["FOO" := ""]} [(Some "FOO", String_ "stale")] "FOO" None).
Proof.
  repeat split; try (vm_compute; reflexivity).
  vm_compute. discriminate.
Qed.

(** C8, as amended: [get_env_required] returns what [get_env] finds at
    the two levels (a non-empty process environment variable, then a
    truthy persisted value), never returns null, and raises [KeyError]
    exactly when neither level holds such a value. *)
Theorem get_env_required_precedence (p : item) (b : body) (key : string) (w : world) :
  (forall v, fst (get_env (MkConfig p (Table b)) key None w) = Ok (Some v) ->
     get_env_required (MkConfig p (Table b)) key w = (Ok (Some v), w))
  /\ fst (get_env_required (MkConfig p (Table b)) key w) <> Ok None
  /\ ((exists msg, fst (get_env_required (MkConfig p (Table b)) key w) = Raise (KeyError msg))
      <-> ((environ w !! key = None \/ environ w !! key = Some "")
           /\ (body_get key b = None
               \/ exists v, body_get key b = Some v /\ truthy_item v = false))).
Proof.
  rewrite get_env_eq, get_env_required_eq, unset_or_empty_falsy, absent_or_falsy.
  cbv zeta. simpl fst.
  destruct (truthy (String_ <$> environ w !! key)) eqn:Ha.
  - rewrite Ha. split; [|split; [|split]].
    + intros v [= E]. rewrite E. reflexivity.
    + intros [= E]. rewrite E in Ha. discriminate.
    + intros [msg ?]. discriminate.
    + intros [? _]. discriminate.
  - destruct (truthy (body_get key b)) eqn:Hb; (split; [|split; [|split]]).
    + intros v [= E]. rewrite E. reflexivity.
    + intros [= E]. rewrite E in Hb. discriminate.
    + intros [msg ?]. discriminate.
    + intros [_ ?]. discriminate.
    + discriminate.
    + discriminate.
    + intros _. split; reflexivity.
    + intros _. eauto.
Qed.

(** A key absent from the environment and from the persisted table
    raises [KeyError]. *)
Lemma get_env_required_precedence_witness :
  exists msg,
    fst (get_env_required (MkConfig (Table []) (Table [])) "FOO" (world_of ∅ None))
    = Raise (KeyError msg).
Proof.
  apply (proj2 (proj2 (proj2 (get_env_required_precedence (Table []) [] "FOO"
                                (world_of ∅ None))))).
  split; left; reflexivity.
Defined.

(** C8 as stated fails: [FOO] is set in the process environment (to the
    empty string), and [get_env_required] raises all the same, so the
    error is not equivalent to the key being unset at both levels. *)
Lemma get_env_required_empty_environ_counterexample :
  ~ ((exists msg,
        fst (get_env_required (MkConfig (Table []) (Table [])) "FOO"
                              (world_of {["FOO" := ""]} None))
        = Raise (KeyError msg))
     <-> (environ (world_of {["FOO" := ""]} None) !! "FOO" = None
          /\ body_get "FOO" [] = None)).
Proof.
  intros [H _].
  assert (Hr : exists msg,
             fst (get_env_required (MkConfig (Table []) (Table [])) "FOO"
                                   (world_of {["FOO" := ""]} None))
             = Raise (KeyError msg)) by (eexists; vm_compute; reflexivity).
  destruct (H Hr) as [He _]. vm_compute in He. discriminate.
Qed.

(** C9: in [get_env] and in [get_env_required] a value that is present
    but is the empty string counts as unset, because each level is
    tested for truthiness.  With the process environment variable set
    to the empty string, a truthy persisted value is what both
    functions return, and both give what they give with the variable
    removed from the environment.  With the empty string persisted
    under the key and no non-empty variable in the environment,
    [get_env] returns the default (null when none is given) and
    [get_env_required] raises the [KeyError], and both give what they
    give with the key removed from the [env] table.  The world is left
    as it was. *)
Theorem empty_string_is_unset (p : item) (b : body) (key : string)
    (default : option string) (w : world) :
  (environ w !! key = Some "" ->
     (forall v, body_get key b = Some v -> truthy_item v = true ->
        get_env (MkConfig p (Table b)) key default w = (Ok (Some v), w)
        /\ get_env_required (MkConfig p (Table b)) key w = (Ok (Some v), w))
     /\ get_env (MkConfig p (Table b)) key default w
        = (fst (get_env (MkConfig p (Table b)) key default
                        (set_environ (delete key (environ w)) w)), w)
     /\ get_env_required (MkConfig p (Table b)) key w
        = (fst (get_env_required (MkConfig p (Table b)) key
                                 (set_environ (delete key (environ w)) w)), w))
  /\ (body_get key b = Some (String_ "") ->
      (environ w !! key = None \/ environ w !! key = Some "" ->
         get_env (MkConfig p (Table b)) key default w = (Ok (String_ <$> default), w)
         /\ get_env_required (MkConfig p (Table b)) key w
            = (Raise (KeyError ("Environment variable " +:+ key
                                +:+ " not set in env or config, see README.")), w))
      /\ get_env (MkConfig p (Table b)) key default w
         = get_env (MkConfig p (Table (body_del key b))) key default w
      /\ get_env_required (MkConfig p (Table b)) key w
         = get_env_required (MkConfig p (Table (body_del key b))) key w).
Proof.
  rewrite !get_env_eq, !get_env_required_eq. cbv zeta. simpl fst. simpl environ.
  rewrite lookup_delete_eq, body_get_del_eq. split.
  - intros ->. split; [|split; reflexivity].
    intros v -> Hv. simpl. rewrite Hv. split; reflexivity.
  - intros ->. split.
    + intros He. apply unset_or_empty_falsy in He. rewrite He. split; reflexivity.
    + destruct (truthy (String_ <$> environ w !! key)); simpl; split; reflexivity.
Qed.

(** An empty [FOO] in the environment lets the persisted [stale]
    through in both functions; and with the empty string persisted as
    well, [get_env] gives the default and [get_env_required] raises. *)
Lemma empty_string_is_unset_witness :
  (get_env (MkConfig (Table []) (Table [(Some "FOO", String_ "stale")])) "FOO" (Some "dflt")
           (world_of {["FOO" := ""]} None)
   = (Ok (Some (String_ "stale")), world_of {["FOO" := ""]} None)
   /\ get_env_required (MkConfig (Table []) (Table [(Some "FOO", String_ "stale")])) "FOO"
                       (world_of {["FOO" := ""]} None)
      = (Ok (Some (String_ "stale")), world_of {["FOO" := ""]} None))
  /\ (get_env (MkConfig (Table []) (Table [(Some "FOO", String_ "")])) "FOO" (Some "dflt")
              (world_of {["FOO" := ""]} None)
      = (Ok (Some (String_ "dflt")), world_of {["FOO" := ""]} None)
      /\ get_env_required (MkConfig (Table []) (Table [(Some "FOO", String_ "")])) "FOO"
                          (world_of {["FOO" := ""]} None)
         = (Raise (KeyError "Environment variable FOO not set in env or config, see README."),
            world_of {["FOO" := ""]} None)).
Proof.
  split.
  - pose proof (empty_string_is_unset (Table []) [(Some "FOO", String_ "stale")] "FOO"
                  (Some "dflt") (world_of {["FOO" := ""]} None)) as [H _].
    destruct (H eq_refl) as [H1 _]. exact (H1 (String_ "stale") eq_refl eq_refl).
  - pose proof (empty_string_is_unset (Table []) [(Some "FOO", String_ "")] "FOO"
                  (Some "dflt") (world_of {["FOO" := ""]} None)) as [_ H].
    destruct (H eq_refl) as [H1 _]. exact (H1 (or_intror eq_refl)).
Defined.

(** ** Loading and writing the configuration document *)

Ltac run_cfg :=
  unfold write_and_reload, load_config, _load_config, bind, modify, gets, ret, raise, lift;
  simpl.

Lemma _load_config_eq (w : world) : _load_config w = (Ok (loaded w), after_load w).
Proof.
  unfold _load_config, loaded, after_load, bind, gets, modify, ret. simpl.
  destruct (config_file w); reflexivity.
Qed.

Lemma config_file_after_load (w : world) : config_file (after_load w) = Some (loaded w).
Proof. unfold after_load, loaded. destruct (config_file w) eqn:E; [exact E | reflexivity]. Qed.

Lemma loaded_after_load (w : world) : loaded (after_load w) = loaded w.
Proof. unfold loaded at 1. rewrite config_file_after_load. reflexivity. Qed.

Lemma config_file_emits (evs : list event) (w : world) :
  config_file (emits evs w) = config_file w.
Proof. induction evs; simpl; auto. Qed.

Lemma environ_emits (evs : list event) (w : world) : environ (emits evs w) = environ w.
Proof. induction evs; simpl; auto. Qed.

Lemma load_config_ok (doc : body) (p e : item) (w : world) :
  config_file w = Some doc ->
  body_get "prompt" doc = Some p -> body_get "env" doc = Some e ->
  exists evs, load_config w = (Ok (MkConfig p e), emits evs w).
Proof.
  intros Hf Hp He. unfold load_config, bind. rewrite _load_config_eq.
  unfold loaded, after_load. rewrite Hf, Hp, He.
  unfold modify, ret.
  destruct (truthy_item _).
  - eexists [_]. reflexivity.
  - exists []. reflexivity.
Qed.

Lemma load_config_file (doc : body) (w : world) :
  config_file w = Some doc -> config_file (snd (load_config w)) = Some doc.
Proof.
  intros Hf. unfold load_config, bind. rewrite _load_config_eq.
  unfold loaded, after_load. rewrite Hf.
  destruct (body_get "prompt" doc); [|exact Hf].
  destruct (body_get "env" doc); [|exact Hf].
  unfold modify, ret, raise. destruct (truthy_item _); exact Hf.
Qed.

(** Writing always leaves the given document in the file, whatever the
    reload then does. *)
Lemma write_and_reload_file (d : body) (w : world) :
  config_file (snd (write_and_reload d w)) = Some d.
Proof.
  unfold write_and_reload, bind, modify. simpl.
  pose proof (load_config_file d (set_config_file (Some d) w) eq_refl) as H.
  destruct (load_config (set_config_file (Some d) w)) as [[c|e] w']; simpl in *; exact H.
Qed.

(** When the document holds its two required tables the reload
    succeeds and the cached [Config] is rebuilt from the document. *)
Lemma write_and_reload_ok (d : body) (p e : item) (w : world) :
  body_get "prompt" d = Some p -> body_get "env" d = Some e ->
  exists evs,
    write_and_reload d w
    = (Ok tt, set_cached (Some (MkConfig p e)) (emits evs (set_config_file (Some d) w))).
Proof.
  intros Hp He. unfold write_and_reload, bind, modify. simpl.
  destruct (load_config_ok d p e (set_config_file (Some d) w) eq_refl Hp He) as [evs ->].
  exists evs. reflexivity.
Qed.

(** ** Walking a key path *)

Lemma item_at_app (p q : list string) (it : item) :
  item_at (p ++ q) it = match item_at p it with
                        | Some x => item_at q x
                        | None => None
                        end.
Proof.
  revert it. induction p as [|k p IH]; intros it; simpl; [reflexivity|].
  destruct it; try reflexivity.
  destruct (body_get k body0); [apply IH | reflexivity].
Qed.

Lemma walk_detached (doc : body) (ks : list string) : walk doc Detached ks = Ok Detached.
Proof. induction ks; simpl; auto. Qed.

(** Along keys that all exist the loop ends on the object they name. *)
Lemma walk_in_doc (doc : body) (ks p : list string) (b : body) :
  item_at (p ++ ks) (Table doc) = Some (Table b) ->
  walk doc (InDoc p) ks = Ok (InDoc (p ++ ks)).
Proof.
  revert p. induction ks as [|k ks IH]; intros p H; simpl.
  - rewrite app_nil_r. reflexivity.
  - rewrite item_at_app in H.
    destruct (item_at p (Table doc)) as [[| | | |b0|]|] eqn:Hp; simpl in H; try discriminate.
    destruct (body_get k b0) as [v|] eqn:Hk; [|discriminate].
    replace (p ++ k :: ks) with ((p ++ [k]) ++ ks) by (rewrite <- app_assoc; reflexivity).
    apply IH. rewrite <- app_assoc. simpl. rewrite item_at_app, Hp. simpl. rewrite Hk. exact H.
Qed.

(** A first key that the document lacks sends the loop to the fresh
    dict, where it stays. *)
Lemma walk_missing (doc : body) (t : string) (ks : list string) :
  body_get t doc = None -> walk doc (InDoc []) (t :: ks) = Ok Detached.
Proof. intros H. simpl. rewrite H. apply walk_detached. Qed.

Lemma replace_at_Table (p : list string) (b doc : body) :
  exists d, replace_at p (Table b) (Table doc) = Table d.
Proof. destruct p; simpl; eauto. Qed.

Lemma item_at_replace_at (p : list string) (new old it : item) :
  item_at p it = Some old -> item_at p (replace_at p new it) = Some new.
Proof.
  revert it. induction p as [|k p IH]; intros it H; simpl in *; [reflexivity|].
  destruct it; try discriminate.
  destruct (body_get k body0) as [v|] eqn:Hk; [|discriminate].
  rewrite body_get_update, String.eqb_refl, Hk. simpl. apply IH. exact H.
Qed.

(** ** [set_config_value] *)

Lemma split_not_nil (sep : ascii) (s : string) : split sep s <> [].
Proof.
  destruct s as [|a s]; simpl; [discriminate|].
  destruct (Ascii.eqb a sep); [discriminate|].
  destruct (split sep s); discriminate.
Qed.

Lemma split_removelast_last (sep : ascii) (s : string) :
  split sep s = removelast (split sep s) ++ [List.last (split sep s) ""].
Proof. apply app_removelast_last, split_not_nil. Qed.

(** When every key before the last names a table of the document, the
    leaf is set in that table and the document is written back. *)
Lemma set_config_value_in_doc (key v : string) (w : world) (b : body) :
  item_at (removelast (split "." key)) (Table (loaded w)) = Some (Table b) ->
  set_config_value key v w
  = write_and_reload
      (table_body (replace_at (removelast (split "." key))
                     (Table (body_set (List.last (split "." key) "") (String_ v) b))
                     (Table (loaded w))))
      (after_load w).
Proof.
  intros H. unfold set_config_value, bind. rewrite _load_config_eq. unfold lift.
  rewrite (walk_in_doc (loaded w) _ [] b H). simpl app.
  unfold ref_setitem. rewrite H.
  destruct (replace_at_Table (removelast (split "." key))
              (body_set (List.last (split "." key) "") (String_ v) b) (loaded w)) as [d ->].
  reflexivity.
Qed.

Lemma loaded_written (c : option Config) (evs : list event) (d : body) (w : world) :
  loaded (set_cached c (emits evs (set_config_file (Some d) w))) = d.
Proof. unfold loaded. simpl. rewrite config_file_emits. reflexivity. Qed.

(** Setting [env.K] in a document that holds its two required tables. *)
Lemma set_env_value (key K v : string) (w : world) (p : item) (e : body) :
  split "." key = ["env"; K] ->
  body_get "prompt" (loaded w) = Some p ->
  body_get "env" (loaded w) = Some (Table e) ->
  exists w',
    set_config_value key v w = (Ok tt, w')
    /\ body_get "prompt" (loaded w') = Some p
    /\ body_get "env" (loaded w') = Some (Table (body_set K (String_ v) e))
    /\ config_file w' = Some (loaded w')
    /\ environ w' = environ w
    /\ _config w' = Some (MkConfig p (Table (body_set K (String_ v) e))).
Proof.
  intros Hs Hp He.
  assert (Hat : item_at (removelast (split "." key)) (Table (loaded w)) = Some (Table e)).
  { rewrite Hs. simpl. rewrite He. reflexivity. }
  rewrite (set_config_value_in_doc key v w e Hat), Hs. simpl.
  set (d := body_update "env" _ (loaded w)).
  assert (Hp' : body_get "prompt" d = Some p).
  { unfold d. rewrite body_get_update. simpl. exact Hp. }
  assert (He' : body_get "env" d = Some (Table (body_set K (String_ v) e))).
  { unfold d. rewrite body_get_update. simpl. rewrite He. reflexivity. }
  destruct (write_and_reload_ok d p _ (after_load w) Hp' He') as [evs ->].
  eexists. split; [reflexivity|].
  rewrite loaded_written. repeat split; auto.
  - simpl. rewrite config_file_emits. reflexivity.
  - simpl. rewrite environ_emits. simpl. unfold after_load.
    destruct (config_file w); reflexivity.
Qed.

(** The part of C2 that holds: after [set_config_value] on [env.K] the
    configuration that [get_config] returns gives the new value for a
    key that the process environment does not set. *)
Lemma set_env_then_get_env (key K v : string) (w : world) (p : item) (e : body) :
  split "." key = ["env"; K] ->
  body_get "prompt" (loaded w) = Some p ->
  body_get "env" (loaded w) = Some (Table e) ->
  environ w !! K = None -> v <> "" ->
  exists w1 c,
    set_config_value key v w = (Ok tt, w1)
    /\ get_config w1 = (Ok c, w1)
    /\ get_env c K None w1 = (Ok (Some (String_ v)), w1).
Proof.
  intros Hs Hp He Hu Hv.
  destruct (set_env_value key K v w p e Hs Hp He) as (w1 & Hr & _ & _ & _ & Henv & Hc).
  exists w1, (MkConfig p (Table (body_set K (String_ v) e))). split; [exact Hr|]. split.
  - unfold get_config, bind, gets, ret. simpl. rewrite Hc. reflexivity.
  - rewrite get_env_eq, Henv, Hu, body_get_set_eq. simpl.
    destruct (String.eqb_spec v ""); [contradiction | reflexivity].
Qed.

(** C2, where the code departs from it: when the first key of the path
    is missing from the document, [d.get(key, {})] hands the loop a
    fresh dict, the leaf is assigned there, and the document that is
    written back is the one that was loaded; no intermediate table is
    created and the path still leads nowhere. *)
Theorem set_config_value_missing_intermediate (key v t : string) (ks : list string)
    (w : world) :
  removelast (split "." key) = t :: ks ->
  body_get t (loaded w) = None ->
  set_config_value key v w = write_and_reload (loaded w) (after_load w)
  /\ config_file (snd (set_config_value key v w)) = Some (loaded w)
  /\ item_at (split "." key) (Table (loaded w)) = None.
Proof.
  intros Hk Ht.
  assert (E : set_config_value key v w = write_and_reload (loaded w) (after_load w)).
  { unfold set_config_value, bind. rewrite _load_config_eq. unfold lift.
    rewrite Hk, (walk_missing _ _ _ Ht). reflexivity. }
  split; [exact E|]. split.
  - rewrite E. apply write_and_reload_file.
  - rewrite split_removelast_last, Hk. simpl. rewrite Ht. reflexivity.
Qed.

(** On the default document, [set_config_value "foo.bar" "x"] writes
    the default document back and [foo.bar] does not exist. *)
Lemma set_config_value_missing_intermediate_witness :
  config_file (snd (set_config_value "foo.bar" "x" (world_of ∅ None)))
  = Some (dict default_config)
  /\ item_at ["foo"; "bar"] (Table (dict default_config)) = None.
Proof.
  destruct (set_config_value_missing_intermediate "foo.bar" "x" "foo" []
              (world_of ∅ None) eq_refl eq_refl) as (_ & H1 & H2).
  split; [exact H1 | exact H2].
Defined.

(** ** [LLMAPIConfig.save_to_config] *)

Lemma loaded_emit (ev : event) (w : world) : loaded (emit ev w) = loaded w.
Proof. reflexivity. Qed.

(** C6: on a configuration document that holds its [prompt] key and its
    [env] table, [save_to_config] succeeds and leaves the token under
    [env.API_KEY] and the provider id under [env.API_PROVIDER]; for a
    provider other than [openai] and [azure] the [env] table is the
    original one with just these two keys set, so what it holds under
    [API_MODEL] and [API_ENDPOINT] is what it held before, whatever the
    [model] and [endpoint] fields are, and the last message logged is
    the warning. *)
Theorem save_to_config_persists (self : LLMAPIConfig) (w : world) (p : item) (e : body) :
  body_get "prompt" (loaded w) = Some p ->
  body_get "env" (loaded w) = Some (Table e) ->
  exists w' e',
    save_to_config self w = (Ok tt, w')
    /\ config_file w' = Some (loaded w')
    /\ body_get "env" (loaded w') = Some (Table e')
    /\ body_get "API_KEY" e' = Some (String_ (token self))
    /\ body_get "API_PROVIDER" e' = Some (String_ (value (provider self)))
    /\ (provider self <> OPENAI -> provider self <> AZURE_OPENAI ->
        e' = body_set "API_PROVIDER" (String_ (value (provider self)))
               (body_set "API_KEY" (String_ (token self)) e)
        /\ body_get "API_MODEL" e' = body_get "API_MODEL" e
        /\ body_get "API_ENDPOINT" e' = body_get "API_ENDPOINT" e
        /\ exists l, log w' = NoCustomEndpoint (value (provider self)) :: l).
Proof.
  intros Hp He. destruct self as [ep tok prov mdl].
  unfold save_to_config, bind. cbn [token provider model endpoint].
  destruct (set_env_value ("env." +:+ _envvar_api_key) "API_KEY" tok w p e eq_refl Hp He)
    as (w1 & E1 & Hp1 & He1 & Hf1 & _ & _).
  rewrite E1.
  destruct (set_env_value ("env." +:+ _envvar_provider) "API_PROVIDER" (value prov) w1 p _
              eq_refl Hp1 He1) as (w2 & E2 & Hp2 & He2 & Hf2 & _ & _).
  rewrite E2.
  set (e2 := body_set "API_PROVIDER" (String_ (value prov))
               (body_set "API_KEY" (String_ tok) e)) in *.
  assert (Hk2 : body_get "API_KEY" e2 = Some (String_ tok)).
  { unfold e2. rewrite body_get_set_ne by discriminate. apply body_get_set_eq. }
  assert (Hv2 : body_get "API_PROVIDER" e2 = Some (String_ (value prov))).
  { unfold e2. apply body_get_set_eq. }
  assert (Hmodel : body_get "API_MODEL" e2 = body_get "API_MODEL" e).
  { unfold e2. rewrite !body_get_set_ne by discriminate. reflexivity. }
  assert (Hend : body_get "API_ENDPOINT" e2 = body_get "API_ENDPOINT" e).
  { unfold e2. rewrite !body_get_set_ne by discriminate. reflexivity. }
  assert (Hskip : exists w' e',
             modify (emit (NoCustomEndpoint (value prov))) w2 = (Ok tt, w')
             /\ config_file w' = Some (loaded w')
             /\ body_get "env" (loaded w') = Some (Table e')
             /\ body_get "API_KEY" e' = Some (String_ tok)
             /\ body_get "API_PROVIDER" e' = Some (String_ (value prov))
             /\ (prov <> OPENAI -> prov <> AZURE_OPENAI ->
                 e' = e2
                 /\ body_get "API_MODEL" e' = body_get "API_MODEL" e
                 /\ body_get "API_ENDPOINT" e' = body_get "API_ENDPOINT" e
                 /\ exists l, log w' = NoCustomEndpoint (value prov) :: l)).
  { exists (emit (NoCustomEndpoint (value prov)) w2), e2.
    repeat split; auto. eexists. reflexivity. }
  assert (Hm : exists w3 e3,
             (match mdl with
              | Some m => if String.eqb m "" then ret tt
                          else set_config_value ("env." +:+ _envvar_model) m
              | None => ret tt
              end) w2 = (Ok tt, w3)
             /\ body_get "prompt" (loaded w3) = Some p
             /\ config_file w3 = Some (loaded w3)
             /\ body_get "env" (loaded w3) = Some (Table e3)
             /\ body_get "API_KEY" e3 = Some (String_ tok)
             /\ body_get "API_PROVIDER" e3 = Some (String_ (value prov))).
  { destruct mdl as [m|]; [destruct (String.eqb m "")|].
    1,3: exists w2, e2; repeat split; assumption.
    destruct (set_env_value ("env." +:+ _envvar_model) "API_MODEL" m w2 p e2
                eq_refl Hp2 He2) as (w3 & E3 & Hp3 & He3 & Hf3 & _ & _).
    exists w3, (body_set "API_MODEL" (String_ m) e2). repeat split; try assumption.
    all: rewrite body_get_set_ne by discriminate; assumption. }
  assert (Hfull : forall k, split "." ("env." +:+ k) = ["env"; k] ->
             k <> "API_KEY" -> k <> "API_PROVIDER" ->
             exists w' e',
               (fun w0 : world =>
                  let (r, w'0) :=
                    (match mdl with
                     | Some m => if String.eqb m "" then ret tt
                                 else set_config_value ("env." +:+ _envvar_model) m
                     | None => ret tt
                     end) w0 in
                  match r with
                  | Ok _ => match ep with
                            | Some u => set_config_value ("env." +:+ k) u
                            | None => ret tt
                            end w'0
                  | Raise e0 => (Raise e0, w'0)
                  end) w2 = (Ok tt, w')
               /\ config_file w' = Some (loaded w')
               /\ body_get "env" (loaded w') = Some (Table e')
               /\ body_get "API_KEY" e' = Some (String_ tok)
               /\ body_get "API_PROVIDER" e' = Some (String_ (value prov))).
  { intros k Hsp Hk1 Hk2'. destruct Hm as (w3 & e3 & E3 & Hp3 & Hf3 & He3 & Hk3 & Hv3).
    cbv beta. rewrite E3. destruct ep as [u|].
    - destruct (set_env_value ("env." +:+ k) k u w3 p e3 Hsp Hp3 He3)
        as (w4 & E4 & Hp4 & He4 & Hf4 & _ & _).
      exists w4, (body_set k (String_ u) e3). repeat split; try assumption.
      all: rewrite body_get_set_ne by assumption; assumption.
    - exists w3, e3. repeat split; assumption. }
  destruct prov; cbn [_envvar_endpoint provider].
  3,4,5: change (String.eqb "" "") with true; cbv iota; exact Hskip.
  all: change (String.eqb "API_ENDPOINT" "") with false; cbv iota;
    destruct (Hfull "API_ENDPOINT" eq_refl ltac:(discriminate) ltac:(discriminate))
      as (w' & e' & E & Hf' & He' & Hk' & Hv');
    exists w', e'; repeat split; try assumption; try contradiction.
Qed.

(** An [anthropic] configuration with a model and an endpoint, saved
    over the default document: the key and the provider are persisted,
    the model and the endpoint are not. *)
Lemma save_to_config_persists_witness :
  exists w' e',
    save_to_config (MkLLMAPIConfig (Some "http://localhost") "t" ANTHROPIC (Some "m"))
                   (world_of ∅ None) = (Ok tt, w')
    /\ body_get "env" (loaded w') = Some (Table e')
    /\ body_get "API_KEY" e' = Some (String_ "t")
    /\ body_get "API_PROVIDER" e' = Some (String_ "anthropic")
    /\ body_get "API_MODEL" e' = None
    /\ body_get "API_ENDPOINT" e' = None.
Proof.
  destruct (save_to_config_persists
              (MkLLMAPIConfig (Some "http://localhost") "t" ANTHROPIC (Some "m"))
              (world_of ∅ None) _ [] eq_refl eq_refl)
    as (w' & e' & E & _ & He & Hk & Hv & Hrest).
  destruct Hrest as (_ & Hm & Hp & _); [discriminate | discriminate |].
  exists w', e'. repeat split; assumption.
Defined.

(** ** [comment_out] *)


Lemma Table_table_body (p : list string) (b doc : body) :
  Table (table_body (replace_at p (Table b) (Table doc))) = replace_at p (Table b) (Table doc).
Proof. destruct (replace_at_Table p b doc) as [d ->]. reflexivity. Qed.


Section CommentOut.
Variable container_str : item -> string.

(** A truthy leaf in a table of the document: the key is deleted
    from that table and the comment is added after its entries. *)
Lemma comment_out_in_doc (key extra : string) (w : world) (b : body) (v : item) :
  item_at (removelast (split "." key)) (Table (loaded w)) = Some (Table b) ->
  body_get (List.last (split "." key) "") b = Some v ->
  truthy_item v = true ->
  comment_out container_str key extra w
  = write_and_reload
      (table_body
         (replace_at (removelast (split "." key))
            (Table (body_del (List.last (split "." key) "") b
                    ++ [(None, commented container_str (List.last (split "." key) "") v extra)]))
            (Table (loaded w))))
      (after_load w).
Proof.
  intros Hat Hk Hv. unfold comment_out, bind. rewrite _load_config_eq. unfold lift.
  rewrite (walk_in_doc (loaded w) _ [] b Hat). simpl app.
  unfold ref_lookup. rewrite Hat. simpl item_get. rewrite Hk, Hv.
  unfold ref_del_add. simpl app. rewrite Hat. unfold body_add, commented.
  destruct (replace_at_Table (removelast (split "." key))
              (body_del (List.last (split "." key) "") b
               ++ [(None, comment (List.last (split "." key) "" +:+ " = "
                                   +:+ item_str container_str v +:+ " # " +:+ extra))])
              (loaded w)) as [d ->].
  reflexivity.
Qed.

(** A leaf that its table lacks, or holds with a falsy value: the
    document is written back as it was loaded. *)
Lemma comment_out_absent (key extra : string) (w : world) (b : body) :
  item_at (removelast (split "." key)) (Table (loaded w)) = Some (Table b) ->
  truthy (body_get (List.last (split "." key) "") b) = false ->
  comment_out container_str key extra w = write_and_reload (loaded w) (after_load w).
Proof.
  intros Hat Hk. unfold comment_out, bind. rewrite _load_config_eq. unfold lift.
  rewrite (walk_in_doc (loaded w) _ [] b Hat). simpl app.
  unfold ref_lookup. rewrite Hat. simpl item_get.
  destruct (body_get (List.last (split "." key) "") b) as [v|]; [|reflexivity].
  simpl in Hk. rewrite Hk. reflexivity.
Qed.

End CommentOut.




(** ** The project prompt *)

Lemma append_empty_r (s : string) : s +:+ "" = s.
Proof.
  induction s as [|a s IH]; [reflexivity|].
  change (String a (s +:+ "") = String a s). rewrite IH. reflexivity.
Qed.

Section ProjectPrompt.
Variable toml_loads : string -> res body.
Variable glob_magic : gmap string Fs.node -> Fs.path -> string -> list string.

(** Patterns that are all strings expand, in order, to what [glob]
    gives for each. *)
Lemma expand_strings (fs_ : gmap string Fs.node) (cwd_ : Fs.path) (pats : list string) :
  expand glob_magic fs_ cwd_ (List.map String_ pats)
  = Ok (flat_map (Fs.glob glob_magic fs_ cwd_) pats).
Proof.
  induction pats as [|pat pats IH]; simpl; [reflexivity|]. rewrite IH. reflexivity.
Qed.

Lemma read_text_exists (fs_ : gmap string Fs.node) (cwd_ : Fs.path) (q : Fs.path)
    (t : string) :
  Fs.read_text fs_ cwd_ q = Ok t -> Fs.exists_ fs_ cwd_ q = true.
Proof.
  unfold Fs.read_text, Fs.exists_, Fs.lexists.
  destruct (Fs.stat fs_ cwd_ (Fs.str q)) as [names [|]| |];
    intros; try discriminate; reflexivity.
Qed.

Lemma check_files_ok (l ts : list string) (w : world) :
  Forall2 (fun f t => Fs.read_text (fs w) (cwd w) (Fs.Path f) = Ok t) l ts ->
  check_files l w = (Ok tt, w).
Proof.
  induction 1 as [|f t l ts Hf _ IH]; simpl; [reflexivity|].
  unfold bind, gets. rewrite (read_text_exists _ _ _ _ Hf). exact IH.
Qed.

Lemma render_files_ok (l ts : list string) (w : world) :
  Forall2 (fun f t => Fs.read_text (fs w) (cwd w) (Fs.Path f) = Ok t) l ts ->
  render_files l w = (Ok (zip_with block l ts), w).
Proof.
  induction 1 as [|f t l ts Hf _ IH]; simpl; [reflexivity|].
  unfold bind. rewrite Hf, IH. reflexivity.
Qed.

(** The prompt once the project file is chosen and the files are
    resolved. *)
Lemma get_workspace_prompt_chosen (workspace : string) (w : world) (c : Fs.path)
    (rest : list Fs.path) (text : string) (doc : body) (pats ts : list string) :
  List.filter (Fs.exists_ (fs w) (cwd w)) (candidates workspace) = c :: rest ->
  Fs.read_text (fs w) (cwd w) c = Ok text ->
  toml_loads text = Ok doc ->
  new_ProjectConfig doc = Ok (MkProjectConfig (Array (List.map String_ pats))) ->
  Forall2 (fun f t => Fs.read_text (fs w) (cwd w) (Fs.Path f) = Ok t)
          (flat_map (Fs.glob glob_magic (fs w) (cwd w)) pats) ts ->
  get_workspace_prompt toml_loads glob_magic workspace w
  = (Ok (prompt_header
         +:+ join (nl +:+ nl)
               (zip_with block (flat_map (Fs.glob glob_magic (fs w) (cwd w)) pats) ts)),
     emit (UsingProjectConfig c) w).
Proof.
  intros Hc Hr Hl Hn Hf. unfold get_workspace_prompt, bind, gets. rewrite Hc.
  unfold modify, lift. simpl fs. simpl cwd. rewrite Hr, Hl, Hn. simpl.
  rewrite expand_strings.
  rewrite (check_files_ok _ ts (emit (UsingProjectConfig c) w)) by exact Hf.
  rewrite (render_files_ok _ ts (emit (UsingProjectConfig c) w)) by exact Hf.
  reflexivity.
Qed.
End ProjectPrompt.



(** *** Patterns and the current directory *)

Lemma cut_at_last_slash_no_slash (p : string) :
  no_slash p = true -> Fs.cut_at_last_slash p = ("", p).
Proof.
  induction p as [|a p IH]; [reflexivity|].
  unfold no_slash. simpl. intros H. apply andb_prop in H as [Ha Hp].
  rewrite (IH Hp). simpl. destruct (Ascii.eqb a "/"); [discriminate | reflexivity].
Qed.

Lemma os_path_split_no_slash (p : string) :
  no_slash p = true -> Fs.os_path_split p = ("", p).
Proof.
  intros H. unfold Fs.os_path_split. rewrite (cut_at_last_slash_no_slash p H). reflexivity.
Qed.

(** A pattern of one component whose wildcards are [*] and [?]
    expands in the current directory. *)
Lemma glob_here (glob_magic : gmap string Fs.node -> Fs.path -> string -> list string)
    (fs_ : gmap string Fs.node) (cwd_ : Fs.path) (pat : string) :
  Fs.has_magic pat = true -> Fs.has_bracket pat = false -> no_slash pat = true ->
  Fs.glob glob_magic fs_ cwd_ pat = Fs.glob1 fs_ cwd_ "" pat.
Proof.
  intros Hm Hb Hs. unfold Fs.glob. rewrite (os_path_split_no_slash pat Hs), Hm, Hb.
  reflexivity.
Qed.

(** The listing that an empty directory name stands for is that of
    the current directory. *)
Lemma scandir_here (fs_ : gmap string Fs.node) (cwd_ : Fs.path) :
  Fs.node_at fs_ (Fs.parts cwd_) = Some Fs.Dir ->
  Fs.scandir fs_ cwd_ "" = Fs.listdir fs_ (Fs.parts cwd_).
Proof.
  intros H. unfold Fs.scandir, Fs.stat. cbn. rewrite H. reflexivity.
Qed.

Lemma glob1_In (fs_ : gmap string Fs.node) (cwd_ : Fs.path) (dirname pattern f : string) :
  In f (Fs.glob1 fs_ cwd_ dirname pattern)
  <-> In f (Fs.scandir fs_ cwd_ dirname) /\ Fs.fnmatch pattern f = true
      /\ (Fs.ishidden pattern = false -> Fs.ishidden f = false).
Proof.
  unfold Fs.glob1. rewrite List.filter_In. destruct (Fs.ishidden pattern).
  - split; [intros [H1 H2] | intros (H1 & H2 & _)]; repeat split; auto. discriminate.
  - rewrite List.filter_In. split.
    + intros [[H1 H3] H2]. repeat split; auto. intros _.
      destruct (Fs.ishidden f); [discriminate | reflexivity].
    + intros (H1 & H2 & H3). repeat split; auto. rewrite (H3 eq_refl). reflexivity.
Qed.

(** C10: the files of the prompt are the expansions that [glob] gives
    for the patterns of the project file in the current directory of
    the process; the workspace has no part in them.  For patterns of
    one component with the wildcards [*] and [?], the set of files
    rendered is the set of the names in the current directory that
    match one of the patterns (hidden names only for a hidden
    pattern); a pattern with a directory before its wildcard component
    lists that directory, resolved from the current directory; and a
    pattern without wildcards is kept when it names an entry from the
    current directory. *)
Theorem glob_relative_to_cwd
    (toml_loads : string -> res body)
    (glob_magic : gmap string Fs.node -> Fs.path -> string -> list string)
    (workspace : string) (w : world) (c : Fs.path) (rest : list Fs.path)
    (text : string) (doc : body) (pats : list string) :
  List.filter (Fs.exists_ (fs w) (cwd w)) (candidates workspace) = c :: rest ->
  Fs.read_text (fs w) (cwd w) c = Ok text ->
  toml_loads text = Ok doc ->
  new_ProjectConfig doc = Ok (MkProjectConfig (Array (List.map String_ pats))) ->
  (forall ts,
     Forall2 (fun f t => Fs.read_text (fs w) (cwd w) (Fs.Path f) = Ok t)
             (flat_map (Fs.glob glob_magic (fs w) (cwd w)) pats) ts ->
     get_workspace_prompt toml_loads glob_magic workspace w
     = (Ok (prompt_header
            +:+ join (nl +:+ nl)
                  (zip_with block (flat_map (Fs.glob glob_magic (fs w) (cwd w)) pats) ts)),
        emit (UsingProjectConfig c) w))
  /\ (Fs.node_at (fs w) (Fs.parts (cwd w)) = Some Fs.Dir ->
      Forall (fun pat => Fs.has_magic pat = true /\ Fs.has_bracket pat = false
                         /\ no_slash pat = true) pats ->
      forall f,
        In f (flat_map (Fs.glob glob_magic (fs w) (cwd w)) pats)
        <-> exists pat,
              In pat pats
              /\ In f (Fs.listdir (fs w) (Fs.parts (cwd w)))
              /\ Fs.fnmatch pat f = true
              /\ (Fs.ishidden pat = false -> Fs.ishidden f = false))
  /\ (forall pat dirname basename,
        Fs.os_path_split pat = (dirname, basename) -> dirname <> "" ->
        Fs.has_magic pat = true -> Fs.has_bracket pat = false ->
        Fs.has_magic dirname = false ->
        Fs.glob glob_magic (fs w) (cwd w) pat
        = List.map (Fs.os_path_join dirname)
            (List.filter (Fs.fnmatch basename)
               (visible basename (Fs.scandir (fs w) (cwd w) dirname))))
  /\ (forall pat,
        Fs.has_magic pat = false -> snd (Fs.os_path_split pat) <> "" ->
        Fs.glob glob_magic (fs w) (cwd w) pat
        = if Fs.lexists (fs w) (cwd w) pat then [pat] else []).
Proof.
  intros Hc Hr Hl Hn. split; [|split; [|split]].
  - intros ts Hts. eapply get_workspace_prompt_chosen; eassumption.
  - intros Hcwd Hpats f. rewrite in_flat_map. split.
    + intros (pat & Hin & Hf). exists pat. split; [exact Hin|].
      rewrite List.Forall_forall in Hpats. destruct (Hpats pat Hin) as (Hm & Hb & Hs).
      rewrite (glob_here glob_magic (fs w) (cwd w) pat Hm Hb Hs) in Hf.
      apply glob1_In in Hf. rewrite (scandir_here (fs w) (cwd w) Hcwd) in Hf. exact Hf.
    + intros (pat & Hin & Hf). exists pat. split; [exact Hin|].
      rewrite List.Forall_forall in Hpats. destruct (Hpats pat Hin) as (Hm & Hb & Hs).
      rewrite (glob_here glob_magic (fs w) (cwd w) pat Hm Hb Hs).
      apply glob1_In. rewrite (scandir_here (fs w) (cwd w) Hcwd). exact Hf.
  - intros pat dirname basename Hsp Hd Hm Hb Hdm. unfold Fs.glob.
    rewrite Hsp, Hm, Hb, Hdm. simpl.
    destruct (String.eqb_spec dirname ""); [contradiction | reflexivity].
  - intros pat Hm Hb. unfold Fs.glob.
    destruct (Fs.os_path_split pat) as [dirname basename]. simpl in Hb. rewrite Hm. simpl.
    destruct (String.eqb_spec basename ""); [contradiction | reflexivity].
Qed.

(** One workspace and one file system under two current directories,
    with a project file that lists [*.md]: from [/home] the prompt
    shows the [NOTES.md] of [/home], and from [/proj] the [README.md]
    of [/proj]. *)
Lemma glob_relative_to_cwd_witness :
  let files_ := <["/proj/gptme.toml" := Fs.File "files = ['*.md']"]>
                  (<["/proj/README.md" := Fs.File "in the workspace"]>
                     (<["/home/NOTES.md" := Fs.File "in the current directory"]> ∅)) in
  fst (get_workspace_prompt example_loads example_glob "/proj" (world_at files_ "/home"))
  = Ok (prompt_header +:+ block "NOTES.md" "in the current directory")
  /\ fst (get_workspace_prompt example_loads example_glob "/proj" (world_at files_ "/proj"))
     = Ok (prompt_header +:+ block "README.md" "in the workspace").
Proof.
  intros files_. split.
  - rewrite (proj1 (glob_relative_to_cwd example_loads example_glob "/proj"
                      (world_at files_ "/home") (Fs.Path "/proj/gptme.toml") []
                      "files = ['*.md']" [(Some "files", Array [String_ "*.md"])] ["*.md"]
                      ltac:(vm_compute; reflexivity) ltac:(vm_compute; reflexivity)
                      eq_refl eq_refl) ["in the current directory"]).
    + vm_compute. reflexivity.
    + change (Forall2 (fun f t => Fs.read_text files_ (Fs.Path "/home") (Fs.Path f) = Ok t)
                ["NOTES.md"] ["in the current directory"]).
      repeat constructor.
  - rewrite (proj1 (glob_relative_to_cwd example_loads example_glob "/proj"
                      (world_at files_ "/proj") (Fs.Path "/proj/gptme.toml") []
                      "files = ['*.md']" [(Some "files", Array [String_ "*.md"])] ["*.md"]
                      ltac:(vm_compute; reflexivity) ltac:(vm_compute; reflexivity)
                      eq_refl eq_refl) ["in the workspace"]).
    + vm_compute. reflexivity.
    + change (Forall2 (fun f t => Fs.read_text files_ (Fs.Path "/proj") (Fs.Path f) = Ok t)
                ["README.md"] ["in the workspace"]).
      repeat constructor.
Defined.

(** ** Loading: errors, warnings and the cache *)

Import Aux.

Lemma load_config_eq (w : world) :
  load_config w
  = match body_get "prompt" (loaded w), body_get "env" (loaded w) with
    | None, _ => (Raise (AssertionError "prompt key missing in config"), after_load w)
    | Some _, None => (Raise (AssertionError "env key missing in config"), after_load w)
    | Some p, Some e =>
        (Ok (MkConfig p e),
         if truthy_item (Table (body_pop "env" (body_pop "prompt" (loaded w))))
         then emit (UnknownKeys (body_keys (body_pop "env" (body_pop "prompt" (loaded w)))))
                (after_load w)
         else after_load w)
    end.
Proof.
  unfold load_config, bind. rewrite _load_config_eq.
  destruct (body_get "prompt" (loaded w)); [|reflexivity].
  destruct (body_get "env" (loaded w)); [|reflexivity].
  unfold modify, ret. destruct (truthy_item _); reflexivity.
Qed.

Lemma body_keys_del (k : string) (b : body) :
  body_keys (body_del k b) = List.filter (fun k' => negb (String.eqb k' k)) (body_keys b).
Proof.
  induction b as [|[[k'|] v] t IH]; simpl; auto.
  destruct (String.eqb k' k); simpl; [exact IH | rewrite IH; reflexivity].
Qed.

Lemma unknown_keys_pop (doc : body) :
  body_keys (body_pop "env" (body_pop "prompt" doc)) = unknown_keys doc.
Proof.
  unfold body_pop, unknown_keys. rewrite !body_keys_del.
  induction (body_keys doc) as [|k l IH]; simpl; [reflexivity|].
  destruct (String.eqb k "prompt"); simpl; [exact IH|].
  destruct (String.eqb k "env"); simpl; [exact IH | rewrite IH; reflexivity].
Qed.

(** X1: [load_config] checks the [prompt] key first and the [env] key
    second: a document without [prompt] raises the assertion about
    [prompt] (also when [env] is missing too), one with [prompt] and
    without [env] raises the one about [env], and one with both gives
    the [Config] of the two values.  A failure leaves the file as
    [_load_config] left it and the cache as it was. *)
Theorem load_config_asserts (w : world) :
  (body_get "prompt" (loaded w) = None ->
   load_config w = (Raise (AssertionError "prompt key missing in config"), after_load w))
  /\ (forall p, body_get "prompt" (loaded w) = Some p -> body_get "env" (loaded w) = None ->
        load_config w = (Raise (AssertionError "env key missing in config"), after_load w))
  /\ (forall p e, body_get "prompt" (loaded w) = Some p ->
        body_get "env" (loaded w) = Some e ->
        fst (load_config w) = Ok (MkConfig p e)).
Proof.
  rewrite load_config_eq. split; [|split].
  - intros ->. reflexivity.
  - intros p -> ->. reflexivity.
  - intros p e -> ->. reflexivity.
Qed.

(** A file that holds only an [env] table, and one that holds only a
    [prompt] table. *)
Lemma load_config_asserts_witness :
  fst (load_config (world_of ∅ (Some [(Some "env", Table [])])))
  = Raise (AssertionError "prompt key missing in config")
  /\ fst (load_config (world_of ∅ (Some [(Some "prompt", Table [])])))
     = Raise (AssertionError "env key missing in config").
Proof.
  split.
  - rewrite (proj1 (load_config_asserts (world_of ∅ (Some [(Some "env", Table [])]))) eq_refl).
    reflexivity.
  - rewrite (proj1 (proj2 (load_config_asserts
                             (world_of ∅ (Some [(Some "prompt", Table [])]))))
               (Table []) eq_refl eq_refl).
    reflexivity.
Defined.

(** X2: when [load_config] succeeds it logs one warning that lists
    exactly the top-level keys other than [prompt] and [env], in the
    order of the document, and logs nothing when there is none. *)
Theorem load_config_warns_unknown_keys (w : world) (p e : item) :
  body_get "prompt" (loaded w) = Some p ->
  body_get "env" (loaded w) = Some e ->
  log (snd (load_config w))
  = match unknown_keys (loaded w) with
    | [] => log (after_load w)
    | ks => UnknownKeys ks :: log (after_load w)
    end.
Proof.
  intros Hp He. rewrite load_config_eq, Hp, He. simpl truthy_item.
  rewrite unknown_keys_pop. destruct (unknown_keys (loaded w)); reflexivity.
Qed.

Lemma load_config_warns_unknown_keys_witness :
  log (snd (load_config
              (world_of ∅ (Some [ (Some "theme", String_ "dark"); (Some "prompt", Table []);
                                  (None, Comment "# note"); (Some "env", Table []);
                                  (Some "editor", String_ "vi") ]))))
  = [UnknownKeys ["theme"; "editor"]].
Proof.
  rewrite (load_config_warns_unknown_keys
             (world_of ∅ (Some [ (Some "theme", String_ "dark"); (Some "prompt", Table []);
                                 (None, Comment "# note"); (Some "env", Table []);
                                 (Some "editor", String_ "vi") ]))
             (Table []) (Table []) eq_refl eq_refl).
  reflexivity.
Defined.

(** X3: [Config.dict] and [load_config] are inverse: a file that holds
    the document of a [Config] loads to that [Config], with no
    warning.  In particular a first start, where the file is created
    from [default_config], loads [default_config]. *)
Theorem load_config_dict_round_trip (c : Config) (w : world) :
  loaded w = dict c -> load_config w = (Ok c, after_load w).
Proof.
  intros H. rewrite load_config_eq, H. destruct c as [p e]. reflexivity.
Qed.

Lemma load_config_dict_round_trip_witness :
  fst (load_config (world_of ∅ None)) = Ok default_config.
Proof.
  rewrite (load_config_dict_round_trip default_config (world_of ∅ None) eq_refl).
  reflexivity.
Defined.

(** X4: on a configuration file that is absent or holds a document
    (a file that does not parse and the errors of the file system are
    not part of the model), [_load_config] returns a document; after
    it the file exists and holds the document it returned, so that a
    second call returns the same document and changes nothing; and a
    file that already exists is returned as it is, with nothing
    written or logged. *)
Theorem _load_config_idempotent (w : world) :
  exists doc,
    fst (_load_config w) = Ok doc
    /\ config_file (snd (_load_config w)) = Some doc
    /\ _load_config (snd (_load_config w)) = (Ok doc, snd (_load_config w))
    /\ (forall d, config_file w = Some d -> _load_config w = (Ok d, w)).
Proof.
  exists (loaded w). rewrite _load_config_eq. simpl fst. simpl snd.
  split; [reflexivity|]. split; [apply config_file_after_load|]. split.
  - rewrite _load_config_eq, loaded_after_load. unfold after_load at 1.
    rewrite config_file_after_load. reflexivity.
  - intros d Hd. unfold loaded, after_load. rewrite Hd. reflexivity.
Qed.

(** A file that exists is handed back untouched. *)
Lemma _load_config_idempotent_witness :
  _load_config (world_of ∅ (Some (doc_with_env [])))
  = (Ok (doc_with_env []), world_of ∅ (Some (doc_with_env []))).
Proof.
  destruct (_load_config_idempotent (world_of ∅ (Some (doc_with_env []))))
    as (doc & _ & _ & _ & H).
  exact (H (doc_with_env []) eq_refl).
Defined.

(** X5: once [get_config] has succeeded the [Config] is served from the
    module global: a later call returns the same [Config] and leaves
    the world alone, whatever has become of the file in between. *)
Theorem get_config_cached (w w' : world) (c : Config) :
  get_config w = (Ok c, w') ->
  forall f, get_config (set_config_file f w') = (Ok c, set_config_file f w').
Proof.
  unfold get_config, bind, gets. simpl.
  destruct (_config w) as [c0|] eqn:Hc.
  - unfold ret. intros [= <- <-] f. simpl. rewrite Hc. reflexivity.
  - destruct (load_config w) as [[c1|e] w1]; [|discriminate].
    unfold modify, ret. simpl. intros [= <- <-] f. reflexivity.
Qed.

(** The first call creates and loads the default document; with the
    file then replaced by one that does not even load, the answer is
    still the default. *)
Lemma get_config_cached_witness :
  fst (get_config (set_config_file (Some []) (snd (get_config (world_of ∅ None)))))
  = Ok default_config.
Proof.
  exact (f_equal fst (get_config_cached (world_of ∅ None) _ default_config eq_refl (Some []))).

Defined.

(** ** Editing: read back, overwrite, failures and what is left alone *)

Lemma walk_to_item (doc : body) (ks p : list string) (it : item) :
  item_at (p ++ ks) (Table doc) = Some it ->
  walk doc (InDoc p) ks = Ok (InDoc (p ++ ks)).
Proof.
  revert p. induction ks as [|k ks IH]; intros p H; simpl.
  - rewrite app_nil_r. reflexivity.
  - rewrite item_at_app in H.
    destruct (item_at p (Table doc)) as [[| | | |b0|]|] eqn:Hp; simpl in H; try discriminate.
    destruct (body_get k b0) as [v|] eqn:Hk; [|discriminate].
    replace (p ++ k :: ks) with ((p ++ [k]) ++ ks) by (rewrite <- app_assoc; reflexivity).
    apply IH. rewrite <- app_assoc. simpl. rewrite item_at_app, Hp. simpl. rewrite Hk. exact H.
Qed.

Lemma walk_app (doc : body) (d : pyref) (l1 l2 : list string) :
  walk doc d (l1 ++ l2) = match walk doc d l1 with
                          | Ok d' => walk doc d' l2
                          | Raise e => Raise e
                          end.
Proof.
  revert d. induction l1 as [|k l1 IH]; intros d; simpl; [reflexivity|].
  destruct (ref_get doc d k); [apply IH | reflexivity].
Qed.

Lemma walk_result_path (doc : body) (ks p q : list string) :
  walk doc (InDoc p) ks = Ok (InDoc q) -> q = p ++ ks.
Proof.
  revert p. induction ks as [|k ks IH]; intros p; simpl.
  - intros [= <-]. rewrite app_nil_r. reflexivity.
  - destruct (item_at p (Table doc)) as [[| | | |b0|]|]; try discriminate.
    destruct (body_get k b0).
    + intros H. apply IH in H. rewrite H, <- app_assoc. reflexivity.
    + rewrite walk_detached. discriminate.
Qed.

(** An intermediate key that leads to something other than a table
    stops the loop with [AttributeError]. *)
Lemma walk_through_scalar (doc : body) (p : list string) (k : string) (ks : list string)
    (it : item) :
  item_at p (Table doc) = Some it -> is_table it = false ->
  walk doc (InDoc []) (p ++ k :: ks) = Raise AttributeError.
Proof.
  intros Hp Hit. rewrite walk_app, (walk_to_item doc p [] it Hp). simpl. rewrite Hp.
  destruct it; try reflexivity. discriminate.
Qed.

Lemma body_update_ext (k : string) (f g : item -> item) (b : body) :
  (forall x, f x = g x) -> body_update k f b = body_update k g b.
Proof.
  intros H. induction b as [|[[k'|] v] t IH]; simpl; auto.
  - destruct (String.eqb k' k); [rewrite H | rewrite IH]; reflexivity.
  - rewrite IH. reflexivity.
Qed.

Lemma body_update_update (k : string) (f g : item -> item) (b : body) :
  body_update k f (body_update k g b) = body_update k (fun x => f (g x)) b.
Proof.
  induction b as [|[[k'|] v] t IH]; simpl; auto.
  - destruct (String.eqb k' k) eqn:E; simpl; rewrite E; [reflexivity | rewrite IH; reflexivity].
  - rewrite IH. reflexivity.
Qed.

Lemma body_keys_update (k : string) (f : item -> item) (b : body) :
  body_keys (body_update k f b) = body_keys b.
Proof.
  induction b as [|[[k'|] v] t IH]; simpl; auto.
  - destruct (String.eqb k' k); simpl; [reflexivity | rewrite IH; reflexivity].
Qed.

Lemma body_update_absent (k : string) (f : item -> item) (b : body) :
  body_get k b = None -> body_update k f b = b.
Proof.
  induction b as [|[[k'|] v] t IH]; simpl; auto.
  - destruct (String.eqb k' k); [discriminate | intros H; rewrite IH by exact H; reflexivity].
  - intros H. rewrite IH by exact H. reflexivity.
Qed.

Lemma body_update_app_absent (k : string) (f : item -> item) (b c : body) :
  body_get k b = None -> body_update k f (b ++ c) = b ++ body_update k f c.
Proof.
  induction b as [|[[k'|] v] t IH]; simpl; auto.
  - destruct (String.eqb k' k); [discriminate | intros H; rewrite IH by exact H; reflexivity].
  - intros H. rewrite IH by exact H. reflexivity.
Qed.

Lemma body_update_insert (k : string) (f : item -> item) (v : item) (b : body) :
  body_get k b = None -> body_update k f (body_insert k v b) = body_insert k (f v) b.
Proof.
  induction b as [|[[k0|] v0] t IH]; simpl.
  - intros _. rewrite String.eqb_refl. reflexivity.
  - destruct (String.eqb k0 k) eqn:E0; [discriminate|]. intros H.
    destruct v0; simpl; rewrite ?E0, ?String.eqb_refl, ?IH; auto.
  - intros H. destruct v0; simpl; rewrite ?String.eqb_refl, ?IH; auto.
Qed.

(** Assigning twice under one key is assigning the second value, for
    two values that are both tables or both not. *)
Lemma body_set_set (k : string) (v1 v2 : item) (b : body) :
  is_table v1 = is_table v2 ->
  body_set k v2 (body_set k v1 b) = body_set k v2 b.
Proof.
  intros Hv. unfold body_set at 1. rewrite body_get_set_eq.
  unfold body_set. destruct (body_get k b) eqn:E.
  - rewrite body_update_update. reflexivity.
  - destruct v1, v2; try discriminate;
      try (rewrite body_update_insert by exact E; reflexivity).
    rewrite body_update_app_absent by exact E. simpl. rewrite String.eqb_refl. reflexivity.
Qed.

Lemma replace_at_replace_at (p : list string) (n1 n2 it : item) :
  replace_at p n2 (replace_at p n1 it) = replace_at p n2 it.
Proof.
  revert it. induction p as [|k p IH]; intros it; simpl; [reflexivity|].
  destruct it; try reflexivity.
  rewrite body_update_update. f_equal. apply body_update_ext. exact IH.
Qed.

Lemma loaded_write_and_reload (d : body) (w : world) :
  loaded (snd (write_and_reload d w)) = d.
Proof. unfold loaded. rewrite write_and_reload_file. reflexivity. Qed.

(** X6: for a key path of any depth whose keys before the last name
    tables of the document, the document [set_config_value] writes
    gives the new value, as a string, at the path, and gives under
    every other key of the same table what the table held before. *)
Theorem set_config_value_read_back (key v : string) (w : world) (b : body) :
  item_at (removelast (split "." key)) (Table (loaded w)) = Some (Table b) ->
  exists doc',
    config_file (snd (set_config_value key v w)) = Some doc'
    /\ item_at (split "." key) (Table doc') = Some (String_ v)
    /\ (forall k', k' <> List.last (split "." key) "" ->
          item_at (removelast (split "." key) ++ [k']) (Table doc') = body_get k' b).
Proof.
  intros Hat. rewrite (set_config_value_in_doc key v w b Hat).
  pose proof (split_removelast_last "." key) as Hsplit.
  set (rl := removelast (split "." key)) in *.
  set (k := List.last (split "." key) "") in *.
  eexists. split; [apply write_and_reload_file|].
  rewrite Table_table_body.
  assert (Hnew : item_at rl (replace_at rl (Table (body_set k (String_ v) b)) (Table (loaded w)))
                 = Some (Table (body_set k (String_ v) b)))
    by (eapply item_at_replace_at; exact Hat).
  split.
  - rewrite Hsplit, item_at_app, Hnew. simpl. rewrite body_get_set_eq. reflexivity.
  - intros k' Hne. rewrite item_at_app, Hnew. simpl.
    rewrite body_get_set_ne by congruence. destruct (body_get k' b); reflexivity.
Qed.

(** Three levels down in the default document. *)
Lemma set_config_value_read_back_witness :
  exists doc',
    config_file (snd (set_config_value "prompt.project.gptme" "a chat CLI" (world_of ∅ None)))
    = Some doc'
    /\ item_at ["prompt"; "project"; "gptme"] (Table doc') = Some (String_ "a chat CLI")
    /\ item_at ["prompt"; "project"; "activitywatch"] (Table doc')
       = Some (String_ ABOUT_ACTIVITYWATCH).
Proof.
  destruct (set_config_value_read_back "prompt.project.gptme" "a chat CLI" (world_of ∅ None)
              [ (Some "activitywatch", String_ ABOUT_ACTIVITYWATCH);
                (Some "gptme", String_ ABOUT_GPTME) ] eq_refl) as (doc' & Hf & Hv & Ho).
  exists doc'. split; [exact Hf|]. split; [exact Hv|].
  exact (Ho "activitywatch" ltac:(discriminate)).
Defined.

(** X7: the last write wins, and in place: setting a key to one value
    and then to another leaves the same file as setting it to the
    second value alone, so in particular setting a value twice is
    setting it once. *)
Theorem set_config_value_overwrites (key v1 v2 : string) (w : world) (b : body) :
  item_at (removelast (split "." key)) (Table (loaded w)) = Some (Table b) ->
  config_file (snd (set_config_value key v2 (snd (set_config_value key v1 w))))
  = config_file (snd (set_config_value key v2 w)).
Proof.
  intros Hat.
  set (rl := removelast (split "." key)) in *.
  set (k := List.last (split "." key) "") in *.
  assert (H1 : item_at rl (Table (loaded (snd (set_config_value key v1 w))))
               = Some (Table (body_set k (String_ v1) b))).
  { rewrite (set_config_value_in_doc key v1 w b Hat), loaded_write_and_reload.
    fold rl k. rewrite Table_table_body. eapply item_at_replace_at. exact Hat. }
  rewrite (set_config_value_in_doc key v2 _ _ H1), write_and_reload_file.
  rewrite (set_config_value_in_doc key v2 w b Hat), write_and_reload_file.
  fold rl k. rewrite (set_config_value_in_doc key v1 w b Hat), loaded_write_and_reload.
  fold rl k. rewrite Table_table_body, replace_at_replace_at, body_set_set by reflexivity. reflexivity.
Qed.

Lemma set_config_value_overwrites_witness :
  config_file (snd (set_config_value "env.FOO" "new"
                      (snd (set_config_value "env.FOO" "old"
                              (world_of ∅ (Some (doc_with_env [(Some "BAR", String_ "x")])))))))
  = Some (doc_with_env [(Some "BAR", String_ "x"); (Some "FOO", String_ "new")]).
Proof.
  rewrite (set_config_value_overwrites "env.FOO" "old" "new"
             (world_of ∅ (Some (doc_with_env [(Some "BAR", String_ "x")])))
             [(Some "BAR", String_ "x")] eq_refl).
  vm_compute. reflexivity.
Defined.

(** X8: a path that runs into something other than a table fails
    before anything is written.  When the keys before the last lead to
    a string, number, boolean or array, the assignment raises
    [TypeError]; when an earlier key does, the loop raises
    [AttributeError]; either way the file holds what it held when it
    was loaded and the cached [Config] is not replaced. *)
Theorem set_config_value_through_scalar (key v : string) (w : world) (it : item) :
  is_table it = false ->
  (item_at (removelast (split "." key)) (Table (loaded w)) = Some it ->
   set_config_value key v w = (Raise TypeError, after_load w))
  /\ (forall p k ks, removelast (split "." key) = p ++ k :: ks ->
        item_at p (Table (loaded w)) = Some it ->
        set_config_value key v w = (Raise AttributeError, after_load w))
  /\ config_file (after_load w) = Some (loaded w)
  /\ _config (after_load w) = _config w.
Proof.
  intros Hit. split; [|split; [|split]].
  - intros Hat. unfold set_config_value, bind. rewrite _load_config_eq. unfold lift.
    rewrite (walk_to_item (loaded w) _ [] it Hat). simpl app.
    unfold ref_setitem. rewrite Hat. destruct it; try reflexivity. discriminate.
  - intros p k ks Hrl Hp. unfold set_config_value, bind. rewrite _load_config_eq. unfold lift.
    rewrite Hrl, (walk_through_scalar (loaded w) p k ks it Hp Hit). reflexivity.
  - apply config_file_after_load.
  - unfold after_load. destruct (config_file w); reflexivity.
Qed.

(** [env.FOO] holds a string: [env.FOO.x] cannot be assigned, and
    [env.FOO.x.y] cannot even be reached. *)
Lemma set_config_value_through_scalar_witness :
  fst (set_config_value "env.FOO.x" "v"
         (world_of ∅ (Some (doc_with_env [(Some "FOO", String_ "s")]))))
  = Raise TypeError
  /\ fst (set_config_value "env.FOO.x.y" "v"
            (world_of ∅ (Some (doc_with_env [(Some "FOO", String_ "s")]))))
     = Raise AttributeError.
Proof.
  split.
  - rewrite (proj1 (set_config_value_through_scalar "env.FOO.x" "v"
                      (world_of ∅ (Some (doc_with_env [(Some "FOO", String_ "s")])))
                      (String_ "s") eq_refl) eq_refl).
    reflexivity.
  - rewrite (proj1 (proj2 (set_config_value_through_scalar "env.FOO.x.y" "v"
                             (world_of ∅ (Some (doc_with_env [(Some "FOO", String_ "s")])))
                             (String_ "s") eq_refl))
               ["env"; "FOO"] "x" [] eq_refl eq_refl).
    reflexivity.
Defined.

Lemma replace_at_cons_frame (t : string) (ks : list string) (new : item) (doc : body) :
  exists d, replace_at (t :: ks) new (Table doc) = Table d
            /\ body_keys d = body_keys doc
            /\ forall t', t' <> t -> body_get t' d = body_get t' doc.
Proof.
  simpl. eexists. split; [reflexivity|]. split; [apply body_keys_update|].
  intros t' Hne. rewrite body_get_update.
  destruct (String.eqb_spec t t'); [congruence | reflexivity].
Qed.

Lemma written_or_not (w : world) (r : res body) (P : body -> Prop) :
  P (loaded w) -> (forall d, r = Ok d -> P d) ->
  exists doc',
    config_file (snd (match r with
                      | Ok a => write_and_reload a (after_load w)
                      | Raise e => (Raise e, after_load w)
                      end)) = Some doc'
    /\ P doc'.
Proof.
  intros H0 H. destruct r as [d|e].
  - exists d. split; [apply write_and_reload_file | apply H; reflexivity].
  - exists (loaded w). split; [apply config_file_after_load | exact H0].
Qed.

Lemma ref_setitem_frame (doc : body) (d : pyref) (t k : string) (ks : list string)
    (v : item) (d' : body) :
  walk doc (InDoc []) (t :: ks) = Ok d ->
  ref_setitem doc d k v = Ok d' ->
  body_keys d' = body_keys doc /\ forall t', t' <> t -> body_get t' d' = body_get t' doc.
Proof.
  intros Hw Hs. destruct d as [q|].
  - apply walk_result_path in Hw. simpl in Hw. subst q.
    unfold ref_setitem in Hs.
    destruct (item_at (t :: ks) (Table doc)) as [[| | | |b|]|]; try discriminate.
    destruct (replace_at_cons_frame t ks (Table (body_set k v b)) doc) as (d0 & E & Hk & Hg).
    rewrite E in Hs. injection Hs as <-. split; assumption.
  - simpl in Hs. injection Hs as <-. split; reflexivity.
Qed.

Lemma ref_del_add_frame (doc : body) (d : pyref) (t k : string) (ks : list string)
    (c : item) (d' : body) :
  walk doc (InDoc []) (t :: ks) = Ok d ->
  ref_del_add doc d k c = Ok d' ->
  body_keys d' = body_keys doc /\ forall t', t' <> t -> body_get t' d' = body_get t' doc.
Proof.
  intros Hw Hs. destruct d as [q|].
  - apply walk_result_path in Hw. simpl in Hw. subst q.
    unfold ref_del_add in Hs.
    destruct (item_at (t :: ks) (Table doc)) as [[| | | |b|]|]; try discriminate.
    destruct (replace_at_cons_frame t ks (Table (body_add c (body_del k b))) doc)
      as (d0 & E & Hk & Hg).
    rewrite E in Hs. injection Hs as <-. split; assumption.
  - simpl in Hs. injection Hs as <-. split; reflexivity.
Qed.

(** X9: an edit below a top-level table, whether it succeeds or fails
    and whether the path exists or not, leaves the file with the same
    top-level keys in the same order and with every other top-level
    entry as it was.  This holds for [set_config_value] and for
    [comment_out]. *)
Theorem edits_leave_other_tables (container_str : item -> string) (key x t : string)
    (ks : list string) (w : world) :
  removelast (split "." key) = t :: ks ->
  (exists doc',
     config_file (snd (set_config_value key x w)) = Some doc'
     /\ body_keys doc' = body_keys (loaded w)
     /\ forall t', t' <> t -> body_get t' doc' = body_get t' (loaded w))
  /\ (exists doc',
        config_file (snd (comment_out container_str key x w)) = Some doc'
        /\ body_keys doc' = body_keys (loaded w)
        /\ forall t', t' <> t -> body_get t' doc' = body_get t' (loaded w)).
Proof.
  intros Hrl. split.
  - unfold set_config_value, bind. rewrite _load_config_eq. unfold lift. rewrite Hrl.
    destruct (walk (loaded w) (InDoc []) (t :: ks)) as [d|e] eqn:Hw.
    + apply (written_or_not w _
               (fun d' => body_keys d' = body_keys (loaded w)
                          /\ forall t', t' <> t -> body_get t' d' = body_get t' (loaded w))).
      * split; reflexivity.
      * intros d' Hs. eapply ref_setitem_frame; eassumption.
    + exists (loaded w). split; [apply config_file_after_load|]. split; reflexivity.
  - unfold comment_out, bind. rewrite _load_config_eq. unfold lift. rewrite Hrl.
    destruct (walk (loaded w) (InDoc []) (t :: ks)) as [d|e] eqn:Hw;
      [|exists (loaded w); split; [apply config_file_after_load|]; split; reflexivity].
    destruct (ref_lookup (loaded w) d (List.last (split "." key) "")) as [value|e];
      [|exists (loaded w); split; [apply config_file_after_load|]; split; reflexivity].
    assert (Hsame : exists doc',
               config_file (snd (write_and_reload (loaded w) (after_load w))) = Some doc'
               /\ body_keys doc' = body_keys (loaded w)
               /\ forall t', t' <> t -> body_get t' doc' = body_get t' (loaded w)).
    { exists (loaded w). split; [apply write_and_reload_file|]. split; reflexivity. }
    destruct value as [v|]; [|exact Hsame].
    destruct (truthy_item v); [|exact Hsame].
    apply (written_or_not w _
             (fun d' => body_keys d' = body_keys (loaded w)
                        /\ forall t', t' <> t -> body_get t' d' = body_get t' (loaded w))).
    + split; reflexivity.
    + intros d' Hs. eapply ref_del_add_frame; eassumption.
Qed.

Lemma edits_leave_other_tables_witness :
  exists doc',
    config_file (snd (set_config_value "env.FOO" "bar" (world_of ∅ None))) = Some doc'
    /\ body_keys doc' = ["prompt"; "env"]
    /\ body_get "prompt" doc' = Some (prompt default_config).
Proof.
  destruct (proj1 (edits_leave_other_tables (fun _ => "") "env.FOO" "bar" "env" []
                     (world_of ∅ None) eq_refl)) as (doc' & Hf & Hk & Hg).
  exists doc'. split; [exact Hf|]. split; [exact Hk|].
  exact (Hg "prompt" ltac:(discriminate)).
Defined.

(** X10: [comment_out] tests the value of the leaf, not its presence:
    a leaf that holds the empty string, zero, [false], an empty array
    or an empty table stays an active key, and the document is
    written back as it was loaded. *)
Theorem comment_out_keeps_falsy_leaf (container_str : item -> string) (key extra : string)
    (w : world) (b : body) (v : item) :
  item_at (removelast (split "." key)) (Table (loaded w)) = Some (Table b) ->
  body_get (List.last (split "." key) "") b = Some v ->
  truthy_item v = false ->
  comment_out container_str key extra w = write_and_reload (loaded w) (after_load w)
  /\ config_file (snd (comment_out container_str key extra w)) = Some (loaded w)
  /\ item_at (split "." key) (Table (loaded w)) = Some v.
Proof.
  intros Hat Hk Hv.
  assert (E : comment_out container_str key extra w
              = write_and_reload (loaded w) (after_load w)).
  { apply (comment_out_absent container_str key extra w b Hat). rewrite Hk. exact Hv. }
  split; [exact E|]. split.
  - rewrite E. apply write_and_reload_file.
  - rewrite split_removelast_last, item_at_app, Hat. simpl. rewrite Hk. reflexivity.
Qed.

Lemma comment_out_keeps_falsy_leaf_witness :
  config_file (snd (comment_out (fun _ => "") "env.DEBUG" "off"
                      (world_of ∅ (Some (doc_with_env [(Some "DEBUG", Integer 0)])))))
  = Some (doc_with_env [(Some "DEBUG", Integer 0)]).
Proof.
  exact (proj1 (proj2 (comment_out_keeps_falsy_leaf (fun _ => "") "env.DEBUG" "off"
                         (world_of ∅ (Some (doc_with_env [(Some "DEBUG", Integer 0)])))
                         [(Some "DEBUG", Integer 0)] (Integer 0) eq_refl eq_refl eq_refl))).
Defined.

(** X11: commenting a key out a second time changes nothing: after a
    [comment_out] that found the leaf, another one on the same key
    path, with any annotation, leaves the file as the first left it. *)
Theorem comment_out_twice (container_str : item -> string) (key extra1 extra2 : string)
    (w : world) (b : body) (v : item) :
  item_at (removelast (split "." key)) (Table (loaded w)) = Some (Table b) ->
  body_get (List.last (split "." key) "") b = Some v ->
  truthy_item v = true ->
  config_file (snd (comment_out container_str key extra2
                      (snd (comment_out container_str key extra1 w))))
  = config_file (snd (comment_out container_str key extra1 w)).
Proof.
  intros Hat Hk Hv.
  rewrite (comment_out_in_doc container_str key extra1 w b v Hat Hk Hv).
  set (rl := removelast (split "." key)) in *.
  set (k := List.last (split "." key) "") in *.
  set (b' := body_del k b ++ [(None, commented container_str k v extra1)]).
  set (w1 := snd (write_and_reload (table_body (replace_at rl (Table b') (Table (loaded w))))
                    (after_load w))).
  assert (Hl : loaded w1 = table_body (replace_at rl (Table b') (Table (loaded w))))
    by apply loaded_write_and_reload.
  assert (Hat1 : item_at rl (Table (loaded w1)) = Some (Table b')).
  { rewrite Hl, Table_table_body. eapply item_at_replace_at. exact Hat. }
  assert (Hk1 : truthy (body_get k b') = false).
  { unfold b'. rewrite body_get_app, body_get_del_eq. reflexivity. }
  rewrite (comment_out_absent container_str key extra2 w1 b' Hat1 Hk1).
  rewrite write_and_reload_file. unfold w1. rewrite write_and_reload_file.
  f_equal. exact Hl.
Qed.

Lemma comment_out_twice_witness :
  config_file (snd (comment_out (fun _ => "") "env.FOO" "again"
                      (snd (comment_out (fun _ => "") "env.FOO" "deprecated"
                              (world_of ∅ (Some (doc_with_env [(Some "FOO", String_ "bar")])))))))
  = Some (doc_with_env [(None, Comment "# FOO = bar # deprecated")]).
Proof.
  rewrite (comment_out_twice (fun _ => "") "env.FOO" "deprecated" "again"
             (world_of ∅ (Some (doc_with_env [(Some "FOO", String_ "bar")])))
             [(Some "FOO", String_ "bar")] (String_ "bar") eq_refl eq_refl eq_refl).
  vm_compute. reflexivity.
Defined.

(** X12: [comment_out] on a path that runs into something other than
    a table, at the keys before the last or earlier, raises
    [AttributeError] and writes nothing. *)
Theorem comment_out_through_scalar (container_str : item -> string) (key extra : string)
    (w : world) (p ks : list string) (it : item) :
  removelast (split "." key) = p ++ ks ->
  item_at p (Table (loaded w)) = Some it ->
  is_table it = false ->
  comment_out container_str key extra w = (Raise AttributeError, after_load w)
  /\ config_file (after_load w) = Some (loaded w).
Proof.
  intros Hrl Hp Hit. split; [|apply config_file_after_load].
  unfold comment_out, bind. rewrite _load_config_eq. unfold lift. rewrite Hrl.
  destruct ks as [|k ks].
  - rewrite app_nil_r, (walk_to_item (loaded w) p [] it Hp). simpl app.
    unfold ref_lookup. rewrite Hp. destruct it; try reflexivity. discriminate.
  - rewrite (walk_through_scalar (loaded w) p k ks it Hp Hit). reflexivity.
Qed.

Lemma comment_out_through_scalar_witness :
  fst (comment_out (fun _ => "") "env.FOO.x" "old"
         (world_of ∅ (Some (doc_with_env [(Some "FOO", String_ "s")]))))
  = Raise AttributeError.
Proof.
  rewrite (proj1 (comment_out_through_scalar (fun _ => "") "env.FOO.x" "old"
                    (world_of ∅ (Some (doc_with_env [(Some "FOO", String_ "s")])))
                    ["env"; "FOO"] [] (String_ "s") eq_refl eq_refl eq_refl)).
  reflexivity.
Defined.

(** X13: [comment_out] does not spare the keys [load_config] insists
    on.  Commenting out a non-empty top-level [env] table, in a
    document that has its [prompt] key, writes the document without
    [env] and then fails the reload with the assertion about [env];
    the cached [Config] stays the old one, and every later
    [load_config] fails the same way. *)
Theorem comment_out_required_table (container_str : item -> string) (extra : string)
    (w : world) (p v : item) :
  body_get "prompt" (loaded w) = Some p ->
  body_get "env" (loaded w) = Some v ->
  truthy_item v = true ->
  fst (comment_out container_str "env" extra w)
  = Raise (AssertionError "env key missing in config")
  /\ body_get "env" (loaded (snd (comment_out container_str "env" extra w))) = None
  /\ _config (snd (comment_out container_str "env" extra w)) = _config w
  /\ fst (load_config (snd (comment_out container_str "env" extra w)))
     = Raise (AssertionError "env key missing in config").
Proof.
  intros Hp He Hv.
  rewrite (comment_out_in_doc container_str "env" extra w (loaded w) v eq_refl He Hv).
  change (removelast (split "." "env")) with (@nil string).
  change (List.last (split "." "env") "") with "env".
  simpl replace_at. simpl table_body.
  set (b' := body_del "env" (loaded w) ++ [(None, commented container_str "env" v extra)]).
  assert (Hp' : body_get "prompt" b' = Some p).
  { unfold b'. rewrite body_get_app, body_get_del_ne by discriminate. rewrite Hp. reflexivity. }
  assert (He' : body_get "env" b' = None).
  { unfold b'. rewrite body_get_app, body_get_del_eq. reflexivity. }
  assert (Hload : forall w0, config_file w0 = Some b' ->
            load_config w0 = (Raise (AssertionError "env key missing in config"), w0)).
  { intros w0 Hf. rewrite load_config_eq. unfold loaded, after_load. rewrite Hf, Hp', He'.
    reflexivity. }
  assert (E : write_and_reload b' (after_load w)
              = (Raise (AssertionError "env key missing in config"),
                 set_config_file (Some b') (after_load w))).
  { unfold write_and_reload, bind, modify. simpl.
    rewrite Hload by reflexivity. reflexivity. }
  rewrite E. simpl fst. simpl snd. split; [reflexivity|]. split; [exact He'|]. split.
  - simpl. unfold after_load. destruct (config_file w); reflexivity.
  - rewrite Hload by reflexivity. reflexivity.
Qed.

Lemma comment_out_required_table_witness :
  fst (comment_out (fun _ => "") "env" "unused"
         (world_of ∅ (Some (doc_with_env [(Some "FOO", String_ "bar")]))))
  = Raise (AssertionError "env key missing in config").
Proof.
  exact (proj1 (comment_out_required_table (fun _ => "") "unused"
                  (world_of ∅ (Some (doc_with_env [(Some "FOO", String_ "bar")])))
                  (Table []) (Table [(Some "FOO", String_ "bar")]) eq_refl eq_refl eq_refl)).
Defined.

(** ** What [save_to_config] leaves in the [env] table *)

Lemma body_get_set_opt_ne (k k' : string) (v : option string) (b : body) :
  k <> k' -> body_get k' (body_set_opt k v b) = body_get k' b.
Proof. intros H. destruct v; simpl; [apply body_get_set_ne; exact H | reflexivity]. Qed.

(** X14: on a document that holds its [prompt] key and its [env]
    table, [save_to_config] succeeds for every provider and leaves in
    [env] the original table with [API_KEY] and [API_PROVIDER] set and,
    for [openai] and [azure] only, [API_MODEL] set when the model is a
    non-empty string and [API_ENDPOINT] set when an endpoint is given;
    a model that is null or empty, or a missing endpoint, leaves what
    the table held under that key.  The [prompt] entry is untouched. *)
Theorem save_to_config_env (self : LLMAPIConfig) (w : world) (p : item) (e : body) :
  body_get "prompt" (loaded w) = Some p ->
  body_get "env" (loaded w) = Some (Table e) ->
  (exists w',
     save_to_config self w = (Ok tt, w')
     /\ body_get "env" (loaded w') = Some (Table (saved_env self e))
     /\ body_get "prompt" (loaded w') = Some p)
  /\ (provider self = OPENAI \/ provider self = AZURE_OPENAI ->
      (forall m, model self = Some m -> m <> "" ->
         body_get "API_MODEL" (saved_env self e) = Some (String_ m))
      /\ (model self = None \/ model self = Some "" ->
          body_get "API_MODEL" (saved_env self e) = body_get "API_MODEL" e)
      /\ (forall u, endpoint self = Some u ->
            body_get "API_ENDPOINT" (saved_env self e) = Some (String_ u))
      /\ (endpoint self = None ->
          body_get "API_ENDPOINT" (saved_env self e) = body_get "API_ENDPOINT" e)).
Proof.
  intros Hp He. destruct self as [ep tok prov mdl]. split.
  - unfold save_to_config, bind, saved_env. cbn [token provider model endpoint].
    destruct (set_env_value ("env." +:+ _envvar_api_key) "API_KEY" tok w p e eq_refl Hp He)
      as (w1 & E1 & Hp1 & He1 & _).
    rewrite E1.
    destruct (set_env_value ("env." +:+ _envvar_provider) "API_PROVIDER" (value prov) w1 p _
                eq_refl Hp1 He1) as (w2 & E2 & Hp2 & He2 & _).
    rewrite E2.
    set (e2 := body_set "API_PROVIDER" (String_ (value prov))
                 (body_set "API_KEY" (String_ tok) e)) in *.
    assert (Hm : exists w3,
               (match mdl with
                | Some m => if String.eqb m "" then ret tt
                            else set_config_value ("env." +:+ _envvar_model) m
                | None => ret tt
                end) w2 = (Ok tt, w3)
               /\ body_get "prompt" (loaded w3) = Some p
               /\ body_get "env" (loaded w3)
                  = Some (Table (body_set_opt "API_MODEL" (nonempty mdl) e2))).
    { destruct mdl as [m|]; simpl nonempty; [destruct (String.eqb m "")|].
      1,3: exists w2; repeat split; assumption.
      destruct (set_env_value ("env." +:+ _envvar_model) "API_MODEL" m w2 p e2
                  eq_refl Hp2 He2) as (w3 & E3 & Hp3 & He3 & _).
      exists w3. repeat split; assumption. }
    assert (Hfull : exists w',
               (fun w0 : world =>
                  let (r, w'0) :=
                    (match mdl with
                     | Some m => if String.eqb m "" then ret tt
                                 else set_config_value ("env." +:+ _envvar_model) m
                     | None => ret tt
                     end) w0 in
                  match r with
                  | Ok _ => match ep with
                            | Some u => set_config_value ("env." +:+ "API_ENDPOINT") u
                            | None => ret tt
                            end w'0
                  | Raise e0 => (Raise e0, w'0)
                  end) w2 = (Ok tt, w')
               /\ body_get "env" (loaded w')
                  = Some (Table (body_set_opt "API_ENDPOINT" ep
                                   (body_set_opt "API_MODEL" (nonempty mdl) e2)))
               /\ body_get "prompt" (loaded w') = Some p).
    { destruct Hm as (w3 & E3 & Hp3 & He3). cbv beta. rewrite E3. destruct ep as [u|].
      - destruct (set_env_value ("env." +:+ "API_ENDPOINT") "API_ENDPOINT" u w3 p _
                    eq_refl Hp3 He3) as (w4 & E4 & Hp4 & He4 & _).
        exists w4. repeat split; assumption.
      - exists w3. repeat split; assumption. }
    destruct prov; cbn [_envvar_endpoint provider].
    3,4,5: change (String.eqb "" "") with true; cbv iota;
      eexists; subst e2; (split; [reflexivity|]); split; assumption.
    all: change (String.eqb "API_ENDPOINT" "") with false; cbv iota; exact Hfull.
  - cbn [provider model endpoint]. intros Hprov.
    assert (Hsaved : saved_env (MkLLMAPIConfig ep tok prov mdl) e
                     = body_set_opt "API_ENDPOINT" ep
                         (body_set_opt "API_MODEL" (nonempty mdl)
                            (body_set "API_PROVIDER" (String_ (value prov))
                               (body_set "API_KEY" (String_ tok) e)))).
    { destruct Hprov as [-> | ->]; reflexivity. }
    rewrite Hsaved. split; [|split; [|split]].
    + intros m -> Hm. rewrite body_get_set_opt_ne by discriminate. simpl.
      destruct (String.eqb_spec m ""); [contradiction|]. simpl. apply body_get_set_eq.
    + intros Hm. rewrite body_get_set_opt_ne by discriminate.
      assert (nonempty mdl = None) as -> by (destruct Hm as [-> | ->]; reflexivity).
      simpl. rewrite !body_get_set_ne by discriminate. reflexivity.
    + intros u ->. simpl. apply body_get_set_eq.
    + intros ->. simpl. destruct (nonempty mdl); simpl;
        rewrite !body_get_set_ne by discriminate; reflexivity.
Qed.

(** An [openai] configuration with a model and an endpoint, saved over
    the default document. *)
Lemma save_to_config_env_witness :
  exists w',
    save_to_config (MkLLMAPIConfig (Some "https://api.openai.com/v1") "t" OPENAI (Some "gpt-4"))
                   (world_of ∅ None) = (Ok tt, w')
    /\ body_get "env" (loaded w')
       = Some (Table [ (Some "API_KEY", String_ "t"); (Some "API_PROVIDER", String_ "openai");
                       (Some "API_MODEL", String_ "gpt-4");
                       (Some "API_ENDPOINT", String_ "https://api.openai.com/v1") ]).
Proof.
  destruct (proj1 (save_to_config_env
                     (MkLLMAPIConfig (Some "https://api.openai.com/v1") "t" OPENAI
                        (Some "gpt-4"))
                     (world_of ∅ None) _ [] eq_refl eq_refl)) as (w' & E & He & _).
  exists w'. split; [exact E | exact He].
Defined.

(** X15: the two classes partition the providers: each provider is
    openai-alike or anthropic-alike and never both; [openrouter] is
    openai-alike; only openai-alike providers have an endpoint
    variable; and no two providers share an id. *)
Theorem provider_classes_partition (p q : Provider) :
  is_openai_alike p = negb (is_anthropic_alike p)
  /\ (is_openrouter p = true -> is_openai_alike p = true)
  /\ (forall ep tok mdl,
        _envvar_endpoint (MkLLMAPIConfig ep tok p mdl) <> "" -> is_openai_alike p = true)
  /\ (value p = value q -> p = q).
Proof.
  split; [|split; [|split]].
  - destruct p; reflexivity.
  - destruct p; simpl; auto.
  - intros ep tok mdl. destruct p; simpl; auto.
  - destruct p, q; simpl; intros H; try reflexivity; discriminate H.
Qed.

Lemma provider_classes_partition_witness : is_openai_alike OPENROUTER = true.
Proof.
  exact (proj1 (proj2 (provider_classes_partition OPENROUTER OPENROUTER)) eq_refl).
Defined.

(** ** Lookups on a configuration whose [env] is not a table *)

(** X16: the lookups never change the state of the process, whatever
    they return or raise.  The persisted [env] is consulted only when
    the process environment has no non-empty value for the key: with
    such a value both lookups return it even when [env] is not a
    table, and without one a persisted [env] that is not a table makes
    both raise [AttributeError]. *)
Theorem get_env_short_circuit (self : Config) (key : string) (default : option string)
    (w : world) :
  snd (get_env self key default w) = w
  /\ snd (get_env_required self key w) = w
  /\ (forall v, environ w !! key = Some v -> v <> "" ->
        fst (get_env self key default w) = Ok (Some (String_ v))
        /\ fst (get_env_required self key w) = Ok (Some (String_ v)))
  /\ (is_table (env self) = false ->
      environ w !! key = None \/ environ w !! key = Some "" ->
      fst (get_env self key default w) = Raise AttributeError
      /\ fst (get_env_required self key w) = Raise AttributeError).
Proof.
  unfold get_env, get_env_required, os_environ_get, bind, gets, ret, raise, lift. simpl.
  split; [|split; [|split]].
  - destruct (truthy (String_ <$> environ w !! key)); [reflexivity|].
    destruct (item_get (env self) key) as [x|]; [|reflexivity].
    destruct (truthy x); reflexivity.
  - destruct (truthy (String_ <$> environ w !! key)) eqn:Ha; simpl.
    + rewrite Ha. reflexivity.
    + destruct (item_get (env self) key) as [x|]; [|reflexivity].
      destruct (truthy x); reflexivity.
  - intros v Hv Hne. rewrite Hv. simpl.
    destruct (String.eqb_spec v ""); [contradiction|]. simpl.
    destruct (String.eqb_spec v ""); [contradiction|]. split; reflexivity.
  - intros Ht He. apply unset_or_empty_falsy in He. rewrite He.
    destruct (env self); try discriminate; split; reflexivity.
Qed.

Lemma get_env_short_circuit_witness :
  fst (get_env (MkConfig (Table []) (String_ "oops")) "FOO" None (world_of {["FOO" := "live"]} None))
  = Ok (Some (String_ "live"))
  /\ fst (get_env (MkConfig (Table []) (String_ "oops")) "FOO" None (world_of ∅ None))
     = Raise AttributeError.
Proof.
  split.
  - apply (proj1 (proj2 (proj2 (get_env_short_circuit
                                  (MkConfig (Table []) (String_ "oops")) "FOO" None
                                  (world_of {["FOO" := "live"]} None))))).
    + vm_compute. reflexivity.
    + discriminate.
  - apply (proj2 (proj2 (proj2 (get_env_short_circuit
                                  (MkConfig (Table []) (String_ "oops")) "FOO" None
                                  (world_of ∅ None))))).
    + reflexivity.
    + left. reflexivity.
Defined.

(** *** Names as the system resolves them and as pathlib writes them *)

Lemma cut_at_last_slash_app (p h t : string) :
  Fs.cut_at_last_slash p = (h, t) -> p = h +:+ t.
Proof.
  revert h t. induction p as [|a p IH]; intros h t; simpl.
  - intros [= <- <-]. reflexivity.
  - destruct (Fs.cut_at_last_slash p) as [h0 t0]. specialize (IH h0 t0 eq_refl). subst p.
    destruct (String.eqb_spec h0 "") as [-> | Hh].
    + destruct (Ascii.eqb_spec a "/") as [-> | Ha]; intros [= <- <-]; reflexivity.
    + intros [= <- <-]. reflexivity.
Qed.

(** Components that are empty or a dot do not change what a name
    resolves to. *)
Lemma lookup_from_filter (fs_ : gmap string Fs.node) (comps cur names : list string)
    (n : Fs.node) :
  Fs.lookup_from fs_ cur comps = Fs.Found names n ->
  Fs.lookup_from fs_ cur (List.filter Fs.is_part comps) = Fs.Found names n.
Proof.
  revert cur. induction comps as [|c comps IH]; intros cur; [auto|].
  simpl. unfold Fs.is_part at 1.
  destruct (Fs.node_at fs_ cur) as [[|t]|] eqn:Hcur; try discriminate.
  destruct (String.eqb c "") eqn:E1; simpl; [apply IH|].
  destruct (String.eqb c ".") eqn:E2; simpl; [apply IH|].
  rewrite Hcur, E1, E2. simpl. destruct (String.eqb c ".."); apply IH.
Qed.

Lemma lookup_from_starts_in_dir (fs_ : gmap string Fs.node) (comps cur names : list string)
    (n : Fs.node) :
  comps <> [] -> Fs.lookup_from fs_ cur comps = Fs.Found names n ->
  Fs.node_at fs_ cur = Some Fs.Dir.
Proof.
  destruct comps as [|c comps]; [contradiction|]. intros _. simpl.
  destruct (Fs.node_at fs_ cur) as [[|t]|]; [reflexivity | discriminate | discriminate].
Qed.

(** Slashes at the end of the name of a directory lead to the same
    directory. *)
Lemma lookup_from_trailing (fs_ : gmap string Fs.node) (k : nat)
    (comps cur names : list string) :
  Fs.lookup_from fs_ cur comps = Fs.Found names Fs.Dir ->
  Fs.lookup_from fs_ cur (comps ++ repeat "" k) = Fs.Found names Fs.Dir.
Proof.
  revert cur. induction comps as [|c comps IH]; intros cur.
  - simpl. destruct (Fs.node_at fs_ cur) as [n|] eqn:Hcur; [|discriminate].
    intros [= <- ->]. induction k as [|k IHk]; simpl; rewrite Hcur; [reflexivity | exact IHk].
  - simpl. destruct (Fs.node_at fs_ cur) as [[|t]|]; try discriminate.
    destruct (String.eqb c "" || String.eqb c "."); [apply IH|].
    destruct (String.eqb c ".."); apply IH.
Qed.

Lemma split_rstrip_slash (s : string) :
  exists k, split "/" s
            = if String.eqb (Fs.rstrip_slash s) "" then repeat "" (S k)
              else split "/" (Fs.rstrip_slash s) ++ repeat "" k.
Proof.
  induction s as [|a s [k IH]]; [exists 0; reflexivity|].
  simpl. destruct (String.eqb_spec (Fs.rstrip_slash s) "") as [E | E].
  - rewrite E in *. simpl. destruct (Ascii.eqb_spec a "/") as [-> | Ha].
    + exists (S k). simpl. rewrite IH. reflexivity.
    + exists k. simpl. rewrite IH. simpl.
      destruct (Ascii.eqb_spec a "/"); [contradiction | reflexivity].
  - simpl. exists k. destruct (Ascii.eqb a "/").
    + rewrite IH. reflexivity.
    + rewrite IH. pose proof (split_not_nil "/" (Fs.rstrip_slash s)) as Hn.
      destruct (split "/" (Fs.rstrip_slash s)); [contradiction | reflexivity].
Qed.

Lemma rstrip_slash_prefix (s : string) :
  Fs.rstrip_slash s <> "" -> String.prefix "/" (Fs.rstrip_slash s) = String.prefix "/" s.
Proof.
  destruct s as [|a s]; [reflexivity|]. cbn [Fs.rstrip_slash].
  destruct (String.eqb (Fs.rstrip_slash s) "" && Ascii.eqb a "/"); [contradiction|].
  intros _. cbn [String.prefix]. destruct (ascii_dec "/" a); [|reflexivity].
  destruct s, (Fs.rstrip_slash _); reflexivity.
Qed.

Lemma rstrip_slash_empty (s : string) : Fs.rstrip_slash s = "" -> Fs.all_slashes s = true.
Proof.
  induction s as [|a s IH]; [reflexivity|]. simpl.
  destruct (String.eqb_spec (Fs.rstrip_slash s) "") as [E | E]; simpl.
  - unfold Fs.all_slashes in *. simpl.
    destruct (Ascii.eqb a "/"); [intros _; apply IH; exact E | discriminate].
  - discriminate.
Qed.

(** A directory that its name without the slashes at the end reaches
    is reached by the name itself. *)
Lemma stat_rstrip_slash (fs_ : gmap string Fs.node) (cwd_ : Fs.path) (s : string)
    (names : list string) :
  Fs.stat fs_ cwd_ (Fs.rstrip_slash s) = Fs.Found names Fs.Dir ->
  Fs.stat fs_ cwd_ s = Fs.Found names Fs.Dir.
Proof.
  unfold Fs.stat. destruct (String.eqb_spec (Fs.rstrip_slash s) "") as [E | E]; [discriminate|].
  destruct (String.eqb_spec s "") as [-> | _]; [contradiction E; reflexivity|].
  rewrite (rstrip_slash_prefix s E). destruct (split_rstrip_slash s) as [k Hk].
  rewrite Hk. destruct (String.eqb_spec (Fs.rstrip_slash s) ""); [contradiction|].
  apply lookup_from_trailing.
Qed.

Lemma split_no_slash (x : string) : no_slash x = true -> split "/" x = [x].
Proof.
  unfold no_slash. induction x as [|a x IH]; simpl; [reflexivity|].
  intros H. apply andb_prop in H as [Ha Hx]. rewrite (IH Hx).
  destruct (Ascii.eqb a "/"); [discriminate | reflexivity].
Qed.

Lemma split_app_slash (x y : string) :
  no_slash x = true -> split "/" (x +:+ String "/" y) = x :: split "/" y.
Proof.
  unfold no_slash. induction x as [|a x IH]; [reflexivity|].
  change (String a x +:+ String "/" y) with (String a (x +:+ String "/" y)). simpl.
  intros H. apply andb_prop in H as [Ha Hx]. rewrite (IH Hx).
  destruct (Ascii.eqb a "/"); [discriminate | reflexivity].
Qed.

Lemma split_join (ps : list string) :
  ps <> [] -> Forall (fun p => no_slash p = true) ps -> split "/" (join "/" ps) = ps.
Proof.
  intros Hne H. induction H as [|p ps Hp Hps IH]; [contradiction|].
  destruct ps as [|q ps]; [apply split_no_slash; exact Hp|].
  change (join "/" (p :: q :: ps)) with (p +:+ String "/" (join "/" (q :: ps))).
  rewrite (split_app_slash _ _ Hp), IH; [reflexivity | discriminate].
Qed.

Lemma split_components (s : string) : Forall (fun p => no_slash p = true) (split "/" s).
Proof.
  induction s as [|a s IH]; simpl; [repeat constructor|].
  destruct (Ascii.eqb a "/") eqn:Ea; [constructor; [reflexivity | exact IH]|].
  destruct (split "/" s) as [|h t]; [repeat constructor; unfold no_slash; simpl; now rewrite Ea|].
  inversion IH as [|? ? Hh Ht]; subst. constructor; [|exact Ht].
  unfold no_slash in *. simpl. now rewrite Ea.
Qed.

Lemma parts_components (s : string) :
  Forall (fun p => no_slash p = true /\ p <> "") (Fs.parts (Fs.Path s)).
Proof.
  simpl. apply List.Forall_forall. intros p Hp. apply List.filter_In in Hp as [Hin Hp].
  split.
  - pose proof (split_components s) as H. rewrite List.Forall_forall in H. auto.
  - intros ->. discriminate.
Qed.

Lemma prefix_slash (s : string) :
  String.prefix "/" s = match s with String a _ => Ascii.eqb a "/" | EmptyString => false end.
Proof.
  destruct s as [|a s]; [reflexivity|]. cbn [String.prefix].
  destruct (ascii_dec "/" a) as [<- | Ha].
  - destruct s; reflexivity.
  - destruct (Ascii.eqb_spec a "/"); [subst; contradiction | reflexivity].
Qed.

Lemma anchor_cases (s : string) :
  (String.prefix "/" s = false /\ Fs.anchor (Fs.Path s) = "")
  \/ (String.prefix "/" s = true
      /\ (Fs.anchor (Fs.Path s) = "/" \/ Fs.anchor (Fs.Path s) = "//")).
Proof.
  simpl. destruct (String.prefix "/" s) eqn:E.
  - right. split; [reflexivity|]. destruct (_ && _); auto.
  - left. split; [reflexivity|]. rewrite prefix_slash in E.
    destruct s as [|a [|b s]]; try reflexivity.
    + cbn [String.prefix]. destruct (ascii_dec "/" a) as [<- | Ha]; [discriminate | reflexivity].
    + cbn [String.prefix]. destruct (ascii_dec "/" a) as [<- | Ha]; [discriminate | reflexivity].
Qed.

Lemma join_parts (p : string) (ps : list string) :
  no_slash p = true -> p <> "" ->
  join "/" (p :: ps) <> "" /\ String.prefix "/" (join "/" (p :: ps)) = false.
Proof.
  intros Hs Hne. destruct p as [|a p]; [contradiction|].
  assert (E : exists r, join "/" (String a p :: ps) = String a r).
  { destruct ps; [exists p; reflexivity | eexists; reflexivity]. }
  destruct E as [r ->]. split; [discriminate|]. rewrite prefix_slash.
  unfold no_slash in Hs. simpl in Hs. destruct (Ascii.eqb a "/"); [discriminate | reflexivity].
Qed.

(** What a name resolves to, the name that pathlib makes of it
    resolves to as well. *)
Lemma stat_Path (fs_ : gmap string Fs.node) (cwd_ : Fs.path) (s : string)
    (names : list string) (n : Fs.node) :
  Fs.stat fs_ cwd_ s = Fs.Found names n ->
  Fs.stat fs_ cwd_ (Fs.str (Fs.Path s)) = Fs.Found names n.
Proof.
  unfold Fs.stat at 1. destruct (String.eqb s ""); [discriminate|]. intros H.
  pose proof (lookup_from_starts_in_dir _ _ _ _ _ (split_not_nil "/" s) H) as Hdir.
  apply lookup_from_filter in H.
  change (List.filter Fs.is_part (split "/" s)) with (Fs.parts (Fs.Path s)) in H.
  pose proof (parts_components s) as Hps.
  unfold Fs.str, Fs.stat.
  destruct (anchor_cases s) as [[Hp Ha] | [Hp Ha]]; rewrite Hp in *.
  - rewrite Ha. destruct (Fs.parts (Fs.Path s)) as [|p ps] eqn:Eps.
    + cbn. cbn in H. rewrite Hdir in *. exact H.
    + inversion Hps as [|? ? [Hs Hne] Hrest]; subst.
      change ("" +:+ join "/" (p :: ps)) with (join "/" (p :: ps)).
      destruct (join_parts p ps Hs Hne) as [Hj1 Hj2].
      destruct (String.eqb_spec (join "/" (p :: ps)) ""); [contradiction|].
      rewrite Hj2, split_join; [exact H | discriminate|].
      eapply List.Forall_impl; [|exact Hps]. intros ? [? _]; assumption.
  - assert (Hsplit : split "/" (join "/" (Fs.parts (Fs.Path s))) = Fs.parts (Fs.Path s)
                     \/ (Fs.parts (Fs.Path s) = []
                         /\ split "/" (join "/" (Fs.parts (Fs.Path s))) = [""])).
    { destruct (Fs.parts (Fs.Path s)) as [|p ps]; [right; split; reflexivity|].
      left. apply split_join; [discriminate|].
      eapply List.Forall_impl; [|exact Hps]. intros ? [? _]; assumption. }
    assert (Hroot : forall l, Fs.lookup_from fs_ [] ("" :: l) = Fs.lookup_from fs_ [] l)
      by reflexivity.
    destruct Ha as [-> | ->].
    + change ("/" +:+ ?x) with (String "/" x).
      replace (match Fs.parts (Fs.Path s) with
               | [] => String "/" (join "/" (Fs.parts (Fs.Path s)))
               | _ :: _ => String "/" (join "/" (Fs.parts (Fs.Path s)))
               end) with (String "/" (join "/" (Fs.parts (Fs.Path s))))
        by (destruct (Fs.parts (Fs.Path s)); reflexivity).
      cbn [String.eqb]. rewrite prefix_slash. cbn [Ascii.eqb Bool.eqb].
      change (split "/" (String "/" ?x)) with ("" :: split "/" x). rewrite Hroot.
      destruct Hsplit as [-> | [E ->]]; [exact H|]. rewrite E in H. exact H.
    + change ("//" +:+ ?x) with (String "/" (String "/" x)).
      replace (match Fs.parts (Fs.Path s) with
               | [] => String "/" (String "/" (join "/" (Fs.parts (Fs.Path s))))
               | _ :: _ => String "/" (String "/" (join "/" (Fs.parts (Fs.Path s))))
               end) with (String "/" (String "/" (join "/" (Fs.parts (Fs.Path s)))))
        by (destruct (Fs.parts (Fs.Path s)); reflexivity).
      cbn [String.eqb]. rewrite prefix_slash. cbn [Ascii.eqb Bool.eqb].
      change (split "/" (String "/" (String "/" ?x))) with ("" :: "" :: split "/" x).
      rewrite !Hroot.
      destruct Hsplit as [-> | [E ->]]; [exact H|]. rewrite E in H. exact H.
Qed.

Lemma lexists_Path (fs_ : gmap string Fs.node) (cwd_ : Fs.path) (s : string) :
  Fs.lexists fs_ cwd_ s = true -> Fs.exists_ fs_ cwd_ (Fs.Path s) = true.
Proof.
  unfold Fs.exists_, Fs.lexists. destruct (Fs.stat fs_ cwd_ s) as [names n| |] eqn:E;
    try discriminate.
  rewrite (stat_Path _ _ _ _ _ E). reflexivity.
Qed.

(** ** The project prompt: skipped files, failures, and what is left alone *)

Lemma glob_literal_hit (glob_magic : gmap string Fs.node -> Fs.path -> string -> list string)
    (fs_ : gmap string Fs.node) (cwd_ : Fs.path) (pat : string) :
  Fs.has_magic pat = false ->
  Fs.glob glob_magic fs_ cwd_ pat = if literal_hit fs_ cwd_ pat then [pat] else [].
Proof.
  intros Hm. unfold Fs.glob, literal_hit. rewrite Hm.
  destruct (Fs.os_path_split pat) as [dirname basename]. simpl.
  destruct (negb (String.eqb basename "")); reflexivity.
Qed.

Lemma flat_map_glob_literal
    (glob_magic : gmap string Fs.node -> Fs.path -> string -> list string)
    (fs_ : gmap string Fs.node) (cwd_ : Fs.path) (pats : list string) :
  Forall (fun pat => Fs.has_magic pat = false) pats ->
  flat_map (Fs.glob glob_magic fs_ cwd_) pats = List.filter (literal_hit fs_ cwd_) pats.
Proof.
  induction 1 as [|pat pats Hm _ IH]; simpl; [reflexivity|].
  rewrite (glob_literal_hit glob_magic fs_ cwd_ pat Hm), IH.
  destruct (literal_hit fs_ cwd_ pat); reflexivity.
Qed.

Lemma literal_hit_lexists (fs_ : gmap string Fs.node) (cwd_ : Fs.path) (pat : string) :
  literal_hit fs_ cwd_ pat = true -> Fs.lexists fs_ cwd_ pat = true.
Proof.
  unfold literal_hit, Fs.os_path_split.
  destruct (Fs.cut_at_last_slash pat) as [head tail] eqn:Ecut.
  apply cut_at_last_slash_app in Ecut.
  destruct (String.eqb_spec tail "") as [-> | _]; simpl; [|auto].
  rewrite append_empty_r in Ecut. subst head.
  unfold Fs.isdir, Fs.lexists.
  destruct (negb (String.eqb pat "") && negb (Fs.all_slashes pat)).
  - destruct (Fs.stat fs_ cwd_ (Fs.rstrip_slash pat)) as [names [|t]| |] eqn:E;
      try discriminate.
    rewrite (stat_rstrip_slash _ _ _ _ E). reflexivity.
  - destruct (Fs.stat fs_ cwd_ pat) as [names [|t]| |]; auto.
Qed.

Lemma literal_hit_exists (fs_ : gmap string Fs.node) (cwd_ : Fs.path) (pat : string) :
  literal_hit fs_ cwd_ pat = true -> Fs.exists_ fs_ cwd_ (Fs.Path pat) = true.
Proof. intros H. apply lexists_Path, literal_hit_lexists, H. Qed.

Lemma check_files_all_exist (l : list string) (w : world) :
  Forall (fun f => Fs.exists_ (fs w) (cwd w) (Fs.Path f) = true) l ->
  check_files l w = (Ok tt, w).
Proof.
  induction 1 as [|f l Hf _ IH]; simpl; [reflexivity|].
  unfold bind, gets. rewrite Hf. exact IH.
Qed.

Lemma check_files_missing (l1 l2 : list string) (f : string) (w : world) :
  Forall (fun f => Fs.exists_ (fs w) (cwd w) (Fs.Path f) = true) l1 ->
  Fs.exists_ (fs w) (cwd w) (Fs.Path f) = false ->
  check_files (l1 ++ f :: l2) w = (Raise (SystemExit 1), emit (MissingProjectFile f) w).
Proof.
  intros H Hf. induction H as [|g l1 Hg _ IH]; simpl; unfold bind, gets.
  - rewrite Hf. reflexivity.
  - rewrite Hg. exact IH.
Qed.

Lemma render_files_outcome (l : list string) (w : world) :
  snd (render_files l w) = w
  /\ forall e, fst (render_files l w) = Raise e ->
       e = IsADirectoryError \/ e = FileNotFoundError \/ e = NotADirectoryError.
Proof.
  induction l as [|f l [IHs IHe]]; simpl; [split; [reflexivity | discriminate]|].
  unfold bind. unfold Fs.read_text.
  destruct (Fs.stat (fs w) (cwd w) (Fs.str (Fs.Path f))) as [names [|t]| |].
  - split; [reflexivity | intros e [= <-]; auto].
  - destruct (render_files l w) as [[bl|e0] w1]; simpl in *.
    + split; [exact IHs | discriminate].
    + split; [exact IHs | intros e [= <-]; apply IHe; reflexivity].
  - split; [reflexivity | intros e [= <-]; auto].
  - split; [reflexivity | intros e [= <-]; auto].
Qed.

Lemma check_files_outcome (l : list string) (w : world) :
  exists evs, snd (check_files l w) = emits evs w.
Proof.
  induction l as [|f l [evs IH]]; simpl.
  - exists []. reflexivity.
  - unfold bind, gets. destruct (Fs.exists_ (fs w) (cwd w) (Fs.Path f)).
    + exists evs. exact IH.
    + eexists [_]. reflexivity.
Qed.

Section ProjectFailures.
Variable toml_loads : string -> res body.
Variable glob_magic : gmap string Fs.node -> Fs.path -> string -> list string.

(** X17: a pattern without a wildcard is never reported missing (on a
    file system without symbolic links, which is all the model has).
    When every pattern of the project file is free of wildcards, the
    files of the prompt are the patterns that [glob] keeps, in order:
    those that name an entry as the system resolves the pattern as it
    is written (a directory, for a pattern ending in a slash).  The
    others are dropped without a message, and since what the system
    resolves the path that pathlib makes of it resolves as well, the
    function does not leave the process, whatever the file system
    holds. *)
Theorem literal_patterns_never_exit (workspace : string) (w : world) (c : Fs.path)
    (rest : list Fs.path) (text : string) (doc : body) (pats : list string) :
  List.filter (Fs.exists_ (fs w) (cwd w)) (candidates workspace) = c :: rest ->
  Fs.read_text (fs w) (cwd w) c = Ok text ->
  toml_loads text = Ok doc ->
  new_ProjectConfig doc = Ok (MkProjectConfig (Array (List.map String_ pats))) ->
  Forall (fun pat => Fs.has_magic pat = false) pats ->
  (forall code, fst (get_workspace_prompt toml_loads glob_magic workspace w)
                <> Raise (SystemExit code))
  /\ (forall ts,
        Forall2 (fun f t => Fs.read_text (fs w) (cwd w) (Fs.Path f) = Ok t)
                (List.filter (literal_hit (fs w) (cwd w)) pats) ts ->
        get_workspace_prompt toml_loads glob_magic workspace w
        = (Ok (prompt_header
               +:+ join (nl +:+ nl)
                     (zip_with block (List.filter (literal_hit (fs w) (cwd w)) pats) ts)),
           emit (UsingProjectConfig c) w)).
Proof.
  intros Hc Hr Hl Hn Hm.
  pose proof (flat_map_glob_literal glob_magic (fs w) (cwd w) pats Hm) as Hflat.
  split.
  - intros code. unfold get_workspace_prompt, bind, gets. rewrite Hc.
    unfold modify, lift. simpl fs. simpl cwd. rewrite Hr, Hl, Hn. simpl.
    rewrite expand_strings, Hflat.
    rewrite (check_files_all_exist _ (emit (UsingProjectConfig c) w)).
    + destruct (render_files_outcome (List.filter (literal_hit (fs w) (cwd w)) pats)
                  (emit (UsingProjectConfig c) w)) as [_ He].
      destruct (render_files _ _) as [[bl|e] w1]; simpl in *; [discriminate|].
      intros [= E]. destruct (He e eq_refl) as [-> | [-> | ->]]; discriminate.
    + simpl. apply List.Forall_forall. intros f Hf. apply List.filter_In in Hf.
      apply literal_hit_exists. apply Hf.
  - intros ts Hts. rewrite <- Hflat in *.
    eapply get_workspace_prompt_chosen; eassumption.
Qed.

(** X18: when the expansion holds a name that nothing answers to, the
    first such name is logged as an error and the process is left with
    status 1; no prompt is returned, and the files after it are not
    looked at. *)
Theorem missing_file_exits (workspace : string) (w : world) (c : Fs.path)
    (rest : list Fs.path) (text : string) (doc : body) (pats l1 l2 : list string)
    (f : string) :
  List.filter (Fs.exists_ (fs w) (cwd w)) (candidates workspace) = c :: rest ->
  Fs.read_text (fs w) (cwd w) c = Ok text ->
  toml_loads text = Ok doc ->
  new_ProjectConfig doc = Ok (MkProjectConfig (Array (List.map String_ pats))) ->
  flat_map (Fs.glob glob_magic (fs w) (cwd w)) pats = l1 ++ f :: l2 ->
  Forall (fun g => Fs.exists_ (fs w) (cwd w) (Fs.Path g) = true) l1 ->
  Fs.exists_ (fs w) (cwd w) (Fs.Path f) = false ->
  get_workspace_prompt toml_loads glob_magic workspace w
  = (Raise (SystemExit 1), emit (MissingProjectFile f) (emit (UsingProjectConfig c) w)).
Proof.
  intros Hc Hr Hl Hn Hflat H1 Hf.
  unfold get_workspace_prompt, bind, gets. rewrite Hc.
  unfold modify, lift. simpl fs. simpl cwd. rewrite Hr, Hl, Hn. simpl.
  rewrite expand_strings, Hflat.
  rewrite (check_files_missing l1 l2 f (emit (UsingProjectConfig c) w)) by assumption.
  reflexivity.
Qed.

(** X19: what the project file can do wrong.  A file that does not
    parse hands the parser's exception on; a parsed file with a key
    other than [files] raises [TypeError]; and a parsed file without
    any key gives the header alone. *)
Theorem project_file_errors (workspace : string) (w : world) (c : Fs.path)
    (rest : list Fs.path) (text : string) :
  List.filter (Fs.exists_ (fs w) (cwd w)) (candidates workspace) = c :: rest ->
  Fs.read_text (fs w) (cwd w) c = Ok text ->
  (forall e, toml_loads text = Raise e ->
     get_workspace_prompt toml_loads glob_magic workspace w
     = (Raise e, emit (UsingProjectConfig c) w))
  /\ (forall doc k, toml_loads text = Ok doc -> In k (body_keys doc) -> k <> "files" ->
        get_workspace_prompt toml_loads glob_magic workspace w
        = (Raise TypeError, emit (UsingProjectConfig c) w))
  /\ (forall doc, toml_loads text = Ok doc -> body_keys doc = [] ->
        get_workspace_prompt toml_loads glob_magic workspace w
        = (Ok prompt_header, emit (UsingProjectConfig c) w)).
Proof.
  intros Hc Hr. split; [|split].
  - intros e Hl. unfold get_workspace_prompt, bind, gets. rewrite Hc.
    unfold modify, lift. simpl fs. simpl cwd. rewrite Hr, Hl. reflexivity.
  - intros doc k Hl Hin Hk. unfold get_workspace_prompt, bind, gets. rewrite Hc.
    unfold modify, lift. simpl fs. simpl cwd. rewrite Hr, Hl.
    unfold new_ProjectConfig.
    assert (forallb (String.eqb "files") (body_keys doc) = false) as ->.
    { apply Bool.not_true_is_false. intros Hall.
      rewrite List.forallb_forall in Hall. apply Hall in Hin.
      apply String.eqb_eq in Hin. congruence. }
    reflexivity.
  - intros doc Hl Hk. unfold get_workspace_prompt, bind, gets. rewrite Hc.
    unfold modify, lift. simpl fs. simpl cwd. rewrite Hr, Hl.
    unfold new_ProjectConfig. rewrite Hk. simpl forallb. cbv iota.
    assert (body_get "files" doc = None) as ->.
    { clear -Hk. induction doc as [|[[k'|] v] t IH]; simpl in *; [reflexivity | discriminate |].
      apply IH. exact Hk. }
    reflexivity.
Qed.

(** X20: [get_workspace_prompt] only reads: whatever it returns or
    raises, the world it leaves is the one it started from with some
    messages added, so the file system, the current directory, the
    environment, the configuration file and the cached [Config] are
    as they were. *)
Theorem get_workspace_prompt_read_only (workspace : string) (w : world) :
  exists evs, snd (get_workspace_prompt toml_loads glob_magic workspace w) = emits evs w.
Proof.
  unfold get_workspace_prompt, bind, gets. cbv beta.
  destruct (List.filter (Fs.exists_ (fs w) (cwd w)) (candidates workspace)) as [|c rest];
    [exists []; reflexivity|].
  unfold modify, lift. simpl fs. simpl cwd.
  set (w1 := emit (UsingProjectConfig c) w).
  assert (H1 : exists evs, w1 = emits evs w) by (eexists [_]; reflexivity).
  destruct (Fs.read_text (fs w) (cwd w) c) as [text|]; [|exact H1].
  destruct (toml_loads text) as [doc|]; [|exact H1].
  destruct (new_ProjectConfig doc) as [project|]; [|exact H1].
  destruct (iter_item (files project)) as [patterns|]; [|exact H1].
  destruct (expand glob_magic (fs w) (cwd w) patterns) as [fl|]; [|exact H1].
  destruct (check_files_outcome fl w1) as [evs Hck].
  destruct (check_files fl w1) as [[[]|e] w2] eqn:Eck; simpl in Hck; subst w2.
  - destruct (render_files_outcome fl (emits evs w1)) as [Hs _].
    destruct (render_files fl (emits evs w1)) as [[bl|e] w3]; simpl in Hs; subst w3;
      exists (evs ++ [UsingProjectConfig c]); unfold emits; rewrite fold_right_app; reflexivity.
  - exists (evs ++ [UsingProjectConfig c]). unfold emits. rewrite fold_right_app. reflexivity.
Qed.
End ProjectFailures.

(** A project file that lists [README.md], which exists, and
    [missing.md], which does not: the prompt shows [README.md] and
    says nothing about the other. *)
Lemma literal_patterns_never_exit_witness :
  let w := world_at (<["/proj/gptme.toml" := Fs.File "files = ['README.md', 'missing.md']"]>
                       (<["/proj/README.md" := Fs.File "# hello"]> ∅)) "/proj" in
  get_workspace_prompt
    (loads_as [(Some "files", Array [String_ "README.md"; String_ "missing.md"])])
    example_glob "/proj" w
  = (Ok (prompt_header +:+ block "README.md" "# hello"),
     emit (UsingProjectConfig (Fs.Path "/proj/gptme.toml")) w).
Proof.
  intros w.
  apply (proj2 (literal_patterns_never_exit
                  (loads_as [(Some "files", Array [String_ "README.md"; String_ "missing.md"])])
                  example_glob "/proj" w (Fs.Path "/proj/gptme.toml") []
                  "files = ['README.md', 'missing.md']"
                  [(Some "files", Array [String_ "README.md"; String_ "missing.md"])]
                  ["README.md"; "missing.md"]
                  ltac:(vm_compute; reflexivity) ltac:(vm_compute; reflexivity)
                  eq_refl eq_refl
                  ltac:(repeat constructor)) ["# hello"]).
  change (Forall2 (fun f t => Fs.read_text (fs w) (cwd w) (Fs.Path f) = Ok t)
            ["README.md"] ["# hello"]).
  repeat constructor.
Defined.

(** A pattern with a bracket, whose expansion reports [README.md],
    which exists, and then [gone.md], which does not. *)
Lemma missing_file_exits_witness :
  let w := world_at (<["/proj/gptme.toml" := Fs.File "files = ['[A-Za-z]*.md']"]>
                       (<["/proj/README.md" := Fs.File "# hello"]> ∅)) "/proj" in
  get_workspace_prompt (loads_as [(Some "files", Array [String_ "[A-Za-z]*.md"])])
    dangling_glob "/proj" w
  = (Raise (SystemExit 1),
     emit (MissingProjectFile "gone.md")
       (emit (UsingProjectConfig (Fs.Path "/proj/gptme.toml")) w)).
Proof.
  intros w.
  apply (missing_file_exits (loads_as [(Some "files", Array [String_ "[A-Za-z]*.md"])])
           dangling_glob "/proj" w
           (Fs.Path "/proj/gptme.toml") [] "files = ['[A-Za-z]*.md']"
           [(Some "files", Array [String_ "[A-Za-z]*.md"])] ["[A-Za-z]*.md"]
           ["README.md"] [] "gone.md").
  - vm_compute. reflexivity.
  - vm_compute. reflexivity.
  - reflexivity.
  - reflexivity.
  - vm_compute. reflexivity.
  - repeat constructor.
  - vm_compute. reflexivity.
Defined.

(** A project file with a key the project configuration does not
    have. *)
Lemma project_file_errors_witness :
  let w := world_at (<["/proj/gptme.toml" := Fs.File "name = 'x'"]> ∅) "/proj" in
  get_workspace_prompt (loads_as [(Some "name", String_ "x")]) example_glob "/proj" w
  = (Raise TypeError, emit (UsingProjectConfig (Fs.Path "/proj/gptme.toml")) w).
Proof.
  intros w.
  apply (proj1 (proj2 (project_file_errors (loads_as [(Some "name", String_ "x")])
                         example_glob "/proj" w (Fs.Path "/proj/gptme.toml") [] "name = 'x'"
                         ltac:(vm_compute; reflexivity) ltac:(vm_compute; reflexivity)))
           [(Some "name", String_ "x")] "name" eq_refl).
  - left. reflexivity.
  - discriminate.
Defined.

(** ** The cache after an edit *)

Lemma write_and_reload_inv (d : body) (w0 w' : world) :
  write_and_reload d w0 = (Ok tt, w') ->
  exists p e,
    config_file w' = Some d
    /\ body_get "prompt" d = Some p /\ body_get "env" d = Some e
    /\ _config w' = Some (MkConfig p e).
Proof.
  intros H. pose proof (write_and_reload_file d w0) as Hf. rewrite H in Hf. simpl in Hf.
  revert H. unfold write_and_reload, bind, modify. simpl. rewrite load_config_eq.
  unfold loaded, after_load. simpl.
  destruct (body_get "prompt" d) as [p|]; [|discriminate].
  destruct (body_get "env" d) as [e|]; [|discriminate].
  intros [= <-]. exists p, e. repeat split; try reflexivity. exact Hf.
Qed.

Lemma edit_ok_inv (r : res body) (w0 w' : world) :
  match r with
  | Ok a => write_and_reload a w0
  | Raise e => (Raise e, w0)
  end = (Ok tt, w') ->
  exists d p e,
    config_file w' = Some d
    /\ body_get "prompt" d = Some p /\ body_get "env" d = Some e
    /\ _config w' = Some (MkConfig p e).
Proof.
  destruct r as [d|]; [|discriminate]. intros H. exists d.
  apply (write_and_reload_inv d w0 w' H).
Qed.

(** X25: after an edit that succeeds the cache agrees with the file:
    whenever [set_config_value] or [comment_out] returns, the file
    holds a document with a [prompt] and an [env] entry and the cached
    [Config] is the one of these two entries, so that [get_config]
    returns it without reading the file. *)
Theorem edit_leaves_cache_coherent (container_str : item -> string) (key x : string)
    (w w' : world) :
  set_config_value key x w = (Ok tt, w') \/ comment_out container_str key x w = (Ok tt, w') ->
  exists d p e,
    config_file w' = Some d
    /\ body_get "prompt" d = Some p /\ body_get "env" d = Some e
    /\ get_config w' = (Ok (MkConfig p e), w').
Proof.
  intros H.
  assert (Hc : exists d p e,
             config_file w' = Some d
             /\ body_get "prompt" d = Some p /\ body_get "env" d = Some e
             /\ _config w' = Some (MkConfig p e)).
  { destruct H as [H | H]; revert H.
    - unfold set_config_value, bind. rewrite _load_config_eq. unfold lift.
      destruct (walk (loaded w) (InDoc []) (removelast (split "." key))) as [d|];
        [|discriminate].
      apply edit_ok_inv.
    - unfold comment_out, bind. rewrite _load_config_eq. unfold lift.
      destruct (walk (loaded w) (InDoc []) (removelast (split "." key))) as [d|];
        [|discriminate].
      destruct (ref_lookup (loaded w) d (List.last (split "." key) "")) as [value|];
        [|discriminate].
      destruct value as [v|]; [destruct (truthy_item v)|].
      + apply edit_ok_inv.
      + apply (edit_ok_inv (Ok (loaded w))).
      + apply (edit_ok_inv (Ok (loaded w))). }
  destruct Hc as (d & p & e & Hf & Hp & He & Hcache).
  exists d, p, e. repeat split; try assumption.
  unfold get_config, bind, gets. simpl. rewrite Hcache. reflexivity.
Qed.

Lemma edit_leaves_cache_coherent_witness :
  exists d p e,
    config_file (snd (set_config_value "env.FOO" "bar" (world_of ∅ None))) = Some d
    /\ body_get "env" d = Some e
    /\ get_config (snd (set_config_value "env.FOO" "bar" (world_of ∅ None)))
       = (Ok (MkConfig p e), snd (set_config_value "env.FOO" "bar" (world_of ∅ None))).
Proof.
  destruct (edit_leaves_cache_coherent (fun _ => "") "env.FOO" "bar" (world_of ∅ None)
              (snd (set_config_value "env.FOO" "bar" (world_of ∅ None))))
    as (d & p & e & Hf & Hp & He & Hg).
  - left. vm_compute. reflexivity.
  - exists d, p, e. split; [exact Hf|]. split; [exact He | exact Hg].
Defined.

(** ** The agent harness *)

Import AgentsPy AgentWords.

Section Harness.
Variable hash : string -> Z.
Variable get_name : string -> Fs.path.
Variable get_prompt : M AgentsPy.world Message.
Variable gptme_chat : chat_call -> M AgentsPy.world unit.

(** [act] up to the call of the engine, when the workspace is free
    and the system prompt is obtained. *)
Lemma act_until_chat (model_ prompt : string) (files : option (gmap string string))
    (w w2 : AgentsPy.world) (sys : Message) :
  Fs.exists_ (AgentsPy.fs w) (AgentsPy.cwd w) (workspace_of hash get_name model_ prompt)
  = false ->
  get_prompt (prepared (workspace_of hash get_name model_ prompt) files w) = (Ok sys, w2) ->
  act hash get_name get_prompt gptme_chat model_ files prompt w
  = (try_except (gptme_chat (the_call (run_name hash model_ prompt) model_ prompt sys))
       is_exit (ret tt) ;;;
     print ("--- Finished generation ---" +:+ AgentsPy.nl) ;;;
     download (MkFileStore (workspace_of hash get_name model_ prompt)))%py w2.
Proof.
  intros Hex Hsys. unfold act. unfold bind at 1. unfold gets at 1. rewrite Hex.
  unfold new_FileStore. unfold bind at 1. unfold ret at 1.
  unfold prepared in Hsys. unfold bind in Hsys |- *.
  destruct files as [m|]; [destruct (truthy_files (Some m))|];
    simpl in Hsys |- *; rewrite Hsys; reflexivity.
Qed.

(** C5: when the workspace directory derived from the model and the
    prompt already exists, [act] raises [FileExistsError] and the
    world is the one it started from: nothing was uploaded, printed
    or downloaded, and neither the system prompt nor the chat engine
    was called, whatever they would have done. *)
Theorem act_workspace_conflict (model_ prompt : string)
    (files : option (gmap string string)) (w : AgentsPy.world) :
  Fs.exists_ (AgentsPy.fs w) (AgentsPy.cwd w) (workspace_of hash get_name model_ prompt)
  = true ->
  exists msg,
    act hash get_name get_prompt gptme_chat model_ files prompt w
    = (Raise (FileExistsError msg), w).
Proof.
  intros Hex. unfold act, bind, gets. rewrite Hex. eexists. reflexivity.
Qed.

(** C4: with a free workspace, when the chat engine raises
    [SystemExit] or [KeyboardInterrupt] the harness swallows it,
    prints its closing line and returns the files that are in the
    workspace in the world the engine left; any other exception of
    the engine leaves [act] as it is, in that same world, and no
    files are returned. *)
Theorem act_contains_exit (model_ prompt : string) (files : option (gmap string string))
    (w w2 w3 : AgentsPy.world) (sys : Message) (e : exn) :
  Fs.exists_ (AgentsPy.fs w) (AgentsPy.cwd w) (workspace_of hash get_name model_ prompt)
  = false ->
  get_prompt (prepared (workspace_of hash get_name model_ prompt) files w) = (Ok sys, w2) ->
  gptme_chat (the_call (run_name hash model_ prompt) model_ prompt sys) w2 = (Raise e, w3) ->
  ((e = KeyboardInterrupt \/ exists code, e = SystemExit code) ->
   act hash get_name get_prompt gptme_chat model_ files prompt w
   = (Ok (files_in (workspace_of hash get_name model_ prompt) w3), finished w3))
  /\ (e <> KeyboardInterrupt -> (forall code, e <> SystemExit code) ->
      act hash get_name get_prompt gptme_chat model_ files prompt w = (Raise e, w3)).
Proof.
  intros Hex Hsys Hchat. rewrite (act_until_chat model_ prompt files w w2 sys Hex Hsys).
  unfold bind, try_except. rewrite Hchat. split.
  - intros [-> | [code ->]]; reflexivity.
  - intros Hk Hs. destruct e; try reflexivity.
    + exfalso. eapply Hs. reflexivity.
    + contradiction.
Qed.
End Harness.

(** An engine that writes [out.txt] into the workspace and is then
    interrupted: [act] returns that file. *)
Lemma act_contains_exit_witness :
  fst (act example_hash example_get_name example_get_prompt example_chat
           "m" None "write a file" (example_world ∅))
  = Ok {["out.txt" := "partial"]}.
Proof.
  edestruct (act_contains_exit example_hash example_get_name example_get_prompt
               example_chat "m" "write a file" None (example_world ∅)) as [Hexit _].
  - vm_compute. reflexivity.
  - reflexivity.
  - reflexivity.
  - rewrite Hexit by (left; reflexivity). vm_compute. reflexivity.
Defined.

(** A run whose workspace directory is already there: the engine of the
    examples, which would write a file, leaves no trace. *)
Lemma act_workspace_conflict_witness :
  exists msg,
    act example_hash example_get_name example_get_prompt example_chat
        "m" (Some {["in.txt" := "seed"]}) "write a file"
        (example_world {["/logs/gptme-evals-m-42/workspace" := Fs.Dir]})
    = (Raise (FileExistsError msg),
       example_world {["/logs/gptme-evals-m-42/workspace" := Fs.Dir]}).
Proof.
  apply (act_workspace_conflict example_hash example_get_name example_get_prompt
           example_chat "m" "write a file" (Some {["in.txt" := "seed"]})
           (example_world {["/logs/gptme-evals-m-42/workspace" := Fs.Dir]})).
  vm_compute. reflexivity.
Defined.

(** ** The agent harness: completion, empty input, and collisions *)

Import Aux.

Section HarnessMore.
Variable hash : string -> Z.
Variable get_name : string -> Fs.path.
Variable get_prompt : M AgentsPy.world Message.
Variable gptme_chat : chat_call -> M AgentsPy.world unit.

(** X21: when the workspace is free and the chat engine returns, [act]
    prints its closing line and returns the files that are in the
    workspace in the world the engine left. *)
Theorem act_completes (model_ prompt : string) (files : option (gmap string string))
    (w w2 w3 : AgentsPy.world) (sys : Message) :
  Fs.exists_ (AgentsPy.fs w) (AgentsPy.cwd w) (workspace_of hash get_name model_ prompt)
  = false ->
  get_prompt (prepared (workspace_of hash get_name model_ prompt) files w) = (Ok sys, w2) ->
  gptme_chat (the_call (run_name hash model_ prompt) model_ prompt sys) w2 = (Ok tt, w3) ->
  act hash get_name get_prompt gptme_chat model_ files prompt w
  = (Ok (files_in (workspace_of hash get_name model_ prompt) w3), finished w3).
Proof.
  intros Hex Hsys Hchat.
  rewrite (act_until_chat hash get_name get_prompt gptme_chat model_ prompt files w w2 sys
             Hex Hsys).
  unfold bind, try_except. rewrite Hchat. reflexivity.
Qed.

(** X22: an empty mapping of input files is no input: [act] with it
    does what [act] without files does, and in both cases nothing is
    uploaded, so that the system prompt provider and the engine start
    on the file system as it was. *)
Theorem act_empty_files (model_ prompt : string) (w : AgentsPy.world) :
  act hash get_name get_prompt gptme_chat model_ (Some ∅) prompt w
  = act hash get_name get_prompt gptme_chat model_ None prompt w
  /\ prepared (workspace_of hash get_name model_ prompt) (Some ∅) w
     = prepared (workspace_of hash get_name model_ prompt) None w
  /\ AgentsPy.fs (prepared (workspace_of hash get_name model_ prompt) None w)
     = AgentsPy.fs w.
Proof.
  unfold act, prepared, truthy_files. rewrite bool_decide_eq_true_2 by reflexivity.
  repeat split; reflexivity.
Qed.

Lemma act_prompt_raises (chat : chat_call -> M AgentsPy.world unit) (model_ prompt : string)
    (files : option (gmap string string)) (w w2 : AgentsPy.world) (e : exn) :
  Fs.exists_ (AgentsPy.fs w) (AgentsPy.cwd w) (workspace_of hash get_name model_ prompt)
  = false ->
  get_prompt (prepared (workspace_of hash get_name model_ prompt) files w) = (Raise e, w2) ->
  act hash get_name get_prompt chat model_ files prompt w = (Raise e, w2).
Proof.
  intros Hex Hsys. unfold act. unfold bind at 1. unfold gets at 1. rewrite Hex.
  unfold new_FileStore. unfold bind at 1. unfold ret at 1.
  unfold prepared in Hsys. unfold bind in Hsys |- *.
  destruct files as [m|]; [destruct (truthy_files (Some m))|];
    simpl in Hsys |- *; rewrite Hsys; reflexivity.
Qed.

(** X23: only the call of the chat engine is guarded.  An exception
    raised while the system prompt is obtained, [SystemExit] and
    [KeyboardInterrupt] included, leaves [act] as it is, and the
    engine is not called. *)
Theorem act_prompt_failure (model_ prompt : string) (files : option (gmap string string))
    (w w2 : AgentsPy.world) (e : exn) :
  Fs.exists_ (AgentsPy.fs w) (AgentsPy.cwd w) (workspace_of hash get_name model_ prompt)
  = false ->
  get_prompt (prepared (workspace_of hash get_name model_ prompt) files w) = (Raise e, w2) ->
  act hash get_name get_prompt gptme_chat model_ files prompt w = (Raise e, w2).
Proof. apply act_prompt_raises. Qed.

(** X24: the workspace of a run depends on the model only through its
    id with every slash replaced by two dashes, and on the prompt only
    through the absolute value of its hash modulo a million.  So a run
    whose model and prompt agree with those of an existing workspace
    in these two respects is refused as a conflict, though model or
    prompt differ. *)
Theorem act_workspace_collision (m1 m2 p1 p2 : string) (files : option (gmap string string))
    (w : AgentsPy.world) :
  replace "/" "--" m1 = replace "/" "--" m2 ->
  run_id hash p1 = run_id hash p2 ->
  workspace_of hash get_name m1 p1 = workspace_of hash get_name m2 p2
  /\ (Fs.exists_ (AgentsPy.fs w) (AgentsPy.cwd w) (workspace_of hash get_name m1 p1) = true ->
      exists msg,
        act hash get_name get_prompt gptme_chat m2 files p2 w
        = (Raise (FileExistsError msg), w)).
Proof.
  intros Hm Hp.
  assert (E : workspace_of hash get_name m1 p1 = workspace_of hash get_name m2 p2).
  { unfold workspace_of, run_name. unfold run_id in Hp. rewrite Hm, Hp. reflexivity. }
  split; [exact E|].
  rewrite E. intros Hex. unfold act, bind, gets. rewrite Hex. eexists. reflexivity.
Qed.
(** X26: the engine is only ever called without confirmation and
    without interaction, on the log directory, with the prompt as the
    single user message: two engines that agree on all such calls
    give the same [act]. *)
Theorem act_calls_noninteractive (chat1 chat2 : chat_call -> M AgentsPy.world unit)
    (model_ prompt : string) (files : option (gmap string string)) (w : AgentsPy.world) :
  (forall call,
     no_confirm call = true -> interactive call = false -> workspace call = "@log" ->
     messages call = [MkMessage "user" prompt] -> model call = model_ ->
     chat1 call = chat2 call) ->
  act hash get_name get_prompt chat1 model_ files prompt w
  = act hash get_name get_prompt chat2 model_ files prompt w.
Proof.
  intros H.
  assert (E : forall sys,
             chat1 (MkChatCall [MkMessage "user" prompt] [sys] (run_name hash model_ prompt)
                      model_ true false "@log")
             = chat2 (MkChatCall [MkMessage "user" prompt] [sys] (run_name hash model_ prompt)
                        model_ true false "@log"))
    by (intros sys; apply H; reflexivity).
  destruct (Fs.exists_ (AgentsPy.fs w) (AgentsPy.cwd w)
              (workspace_of hash get_name model_ prompt)) eqn:Hex.
  - unfold act, bind, gets. rewrite Hex. reflexivity.
  - destruct (get_prompt (prepared (workspace_of hash get_name model_ prompt) files w))
      as [[sys|e] w2] eqn:Hsys.
    + rewrite (act_until_chat hash get_name get_prompt chat1 model_ prompt files w w2 sys
                 Hex Hsys).
      rewrite (act_until_chat hash get_name get_prompt chat2 model_ prompt files w w2 sys
                 Hex Hsys).
      unfold bind, try_except, the_call. rewrite E. reflexivity.
    + rewrite (act_prompt_raises chat1 model_ prompt files w w2 e Hex Hsys).
      rewrite (act_prompt_raises chat2 model_ prompt files w w2 e Hex Hsys).
      reflexivity.
Qed.
End HarnessMore.

(** An engine that returns after writing nothing: [act] returns the
    empty snapshot of the fresh workspace. *)
Lemma act_completes_witness :
  fst (act example_hash example_get_name example_get_prompt (fun _ => ret tt)
           "m" None "do nothing" (example_world ∅))
  = Ok ∅.
Proof.
  etransitivity.
  - apply (f_equal fst).
    eapply (act_completes example_hash example_get_name example_get_prompt (fun _ => ret tt)
              "m" "do nothing" None (example_world ∅)).
    + vm_compute. reflexivity.
    + reflexivity.
    + reflexivity.
  - vm_compute. reflexivity.
Defined.

(** A system prompt provider that leaves the process. *)
Lemma act_prompt_failure_witness :
  fst (act example_hash example_get_name (raise (SystemExit 2)) example_chat
           "m" None "anything" (example_world ∅))
  = Raise (SystemExit 2).
Proof.
  etransitivity.
  - apply (f_equal fst).
    eapply (act_prompt_failure example_hash example_get_name (raise (SystemExit 2))
              example_chat "m" "anything" None (example_world ∅)).
    + vm_compute. reflexivity.
    + reflexivity.
  - reflexivity.
Defined.

(** The models [a/b] and [a--b], and two prompts whose hashes are 42
    and -1000042: one workspace. *)
Lemma act_workspace_collision_witness :
  workspace_of example_hash2 example_get_name "a/b" "first"
  = workspace_of example_hash2 example_get_name "a--b" "second".
Proof.
  apply (act_workspace_collision example_hash2 example_get_name example_get_prompt
           example_chat "a/b" "a--b" "first" "second" None (example_world ∅)).
  - vm_compute. reflexivity.
  - vm_compute. reflexivity.
Defined.

(** An engine that misbehaves only when asked to interact is as good
    as the engine of the examples. *)
Lemma act_calls_noninteractive_witness :
  act example_hash example_get_name example_get_prompt
      (fun call => if interactive call then raise (OtherException "tty") else example_chat call)
      "m" None "write a file" (example_world ∅)
  = act example_hash example_get_name example_get_prompt example_chat
        "m" None "write a file" (example_world ∅).
Proof.
  apply (act_calls_noninteractive example_hash example_get_name example_get_prompt).
  intros call _ Hi _ _ _. rewrite Hi. reflexivity.
Defined.
